(** * ibis: translation of window and scalar operations to SQL

    A shallow embedding of
      - [ibis/backends/base/sql/registry/window.py]   (module [window]), the
        string-producing window rules, and
      - [ibis/backends/base/sql/alchemy/registry.py]  (module [alchemy]), the
        SQLAlchemy-producing rules,
    together with the statements proved about them.

    Python exceptions are values of [com.exn]; a computation that may raise
    lives in [res].  Expressions ([ir.Expr]) are thin wrappers around
    operation nodes, so [to_expr] and [op] are the identity here. *)

From Stdlib Require Import ZArith.
From stdpp Require Import base option list strings gmap pretty.

Local Open Scope Z_scope.
Local Set Warnings "-register-all".

(** ** Exceptions ([ibis.common.exceptions] and the builtins the code meets) *)

Module com.

Inductive exn : Type :=
| IbisError (msg : string)
| IbisInputError (msg : string)
| UnsupportedOperationError (msg : string)
| TranslationError (msg : string)
| NotImplementedError (msg : string)
| AttributeError (msg : string)
| IndexError (msg : string)
| KeyError (msg : string)
| TypeError (msg : string)
| OperationNotDefinedError (msg : string)
| RecursionError.

End com.

Inductive res (A : Type) : Type :=
| Ok (a : A)
| Raise (e : com.exn).
Arguments Ok {A} a.
Arguments Raise {A} e.

Global Instance res_ret : MRet res := λ A, Ok.
Global Instance res_bind : MBind res := λ A B f m,
  match m with
  | Ok a => f a
  | Raise e => Raise e
  end.

Definition is_Ok {A} (m : res A) : bool :=
  match m with Ok _ => true | Raise _ => false end.

(** ** Data types ([ibis.expr.datatypes])

    Only the type tests that the two registries call are needed.  The module
    that declares them is not part of the translated sources; the classes
    below follow its class hierarchy: the integer, floating point and decimal
    types are numeric; date, time and timestamp are temporal; an interval
    carries its unit. *)

Module dt.

Inductive t : Type :=
| Null | Boolean
| Int8 | Int16 | Int32 | Int64
| UInt8 | UInt16 | UInt32 | UInt64
| Float32 | Float64 | Decimal
| String | Binary | JSON
| Date | Time | Timestamp
| Interval (unit : string).

Definition int8 : t := Int8.
Definition int64 : t := Int64.

(** The type inferred for a Python int: the smallest signed integer type
    that holds it. *)
Definition infer_integer (z : Z) : t :=
  if (-128 <=? z) && (z <=? 127) then Int8
  else if (-32768 <=? z) && (z <=? 32767) then Int16
  else if (-2147483648 <=? z) && (z <=? 2147483647) then Int32
  else Int64.

Definition is_integer (d : t) : bool :=
  match d with
  | Int8 | Int16 | Int32 | Int64 | UInt8 | UInt16 | UInt32 | UInt64 => true
  | _ => false
  end.

Definition is_numeric (d : t) : bool :=
  match d with
  | Float32 | Float64 | Decimal => true
  | _ => is_integer d
  end.

Definition is_temporal (d : t) : bool :=
  match d with Date | Time | Timestamp => true | _ => false end.

Definition is_timestamp (d : t) : bool :=
  match d with Timestamp => true | _ => false end.

Definition is_string (d : t) : bool :=
  match d with String => true | _ => false end.

Definition is_binary (d : t) : bool :=
  match d with Binary => true | _ => false end.

Definition is_json (d : t) : bool :=
  match d with JSON => true | _ => false end.

(** [d.unit]: only interval types have the attribute. *)
Definition unit (d : t) : res string :=
  match d with
  | Interval u => Ok u
  | _ => Raise (com.AttributeError "unit")
  end.

End dt.

(** ** Python scalars held by literals *)

Inductive pyval : Type :=
| PyNone
| PyBool (b : bool)
| PyInt (z : Z)
| PyStr (s : string).

(** [v == 0] *)
Definition py_eq_zero (v : pyval) : bool :=
  match v with
  | PyInt z => Z.eqb z 0
  | PyBool b => negb b
  | PyNone | PyStr _ => false
  end.

Fixpoint str_repeat (s : string) (n : nat) : string :=
  match n with
  | O => ""
  | S n' => s +:+ str_repeat s n'
  end.

(** [v * k] for a Python int [k] *)
Definition py_mul (v : pyval) (k : Z) : res pyval :=
  match v with
  | PyInt z => Ok (PyInt (z * k))
  | PyBool b => Ok (PyInt ((if b then 1 else 0) * k))
  | PyStr s => Ok (PyStr (str_repeat s (Z.to_nat k)))
  | PyNone => Raise (com.TypeError "unsupported operand type(s) for *")
  end.

(** [-v] *)
Definition py_neg (v : pyval) : res pyval :=
  match v with
  | PyInt z => Ok (PyInt (- z))
  | PyBool b => Ok (PyInt (- (if b then 1 else 0)))
  | PyNone | PyStr _ => Raise (com.TypeError "bad operand type for unary -")
  end.

(** ** Operation nodes ([ibis.expr.operations])

    The node classes the two registries inspect or build.  Nodes are
    immutable; [copy] on a frame, a boundary or a sort key builds a new
    record. *)

Module ops.

Inductive reduction_cls : Type :=
| Sum | Min | Max | Mean | Any | All
| Count | CountDistinct
| ApproxMedian | GroupConcat | ApproxCountDistinct.

Inductive cumulative_cls : Type :=
| CumulativeSum | CumulativeMin | CumulativeMax
| CumulativeMean | CumulativeAny | CumulativeAll.

Inductive analytic_cls : Type :=
| RowNumber | MinRank | DenseRank | PercentRank | CumeDist | NTile
| Lag | Lead | FirstValue | LastValue | NthValue.

(** [type(op)] *)
Inductive cls : Type :=
| cLiteral | cTableColumn | cCast | cAlias | cWhere
| cValue (name : string)
| cReduction (r : reduction_cls)
| cCountStar
| cCumulative (c : cumulative_cls)
| cAnalytic (a : analytic_cls)
| cWindowFunction.

Record SortKey_ (N : Type) : Type := mkSortKey
  { expr : N; ascending : bool }.
Arguments mkSortKey {N}.
Arguments expr {N}.
Arguments ascending {N}.

Record WindowBoundary_ (N : Type) : Type := mkWindowBoundary
  { value : N; preceding : bool }.
Arguments mkWindowBoundary {N}.
Arguments value {N}.
Arguments preceding {N}.

(** [RowsWindowFrame] and [RangeWindowFrame] *)
Inductive frame_cls : Type := RowsWindowFrame | RangeWindowFrame.

Record WindowFrame_ (N : Type) : Type := mkWindowFrame
  { frame_type : frame_cls;
    group_by : list N;
    order_by : list (SortKey_ N);
    start : option (WindowBoundary_ N);
    end_ : option (WindowBoundary_ N);
    max_lookback : option N }.
Arguments mkWindowFrame {N}.
Arguments frame_type {N}.
Arguments group_by {N}.
Arguments order_by {N}.
Arguments start {N}.
Arguments end_ {N}.
Arguments max_lookback {N}.

Inductive node : Type :=
| Literal (value : pyval) (dtype : dt.t)
| TableColumn (table name : string) (dtype : dt.t)
| Cast (arg : node) (to : dt.t)
| Alias (arg : node) (name : string)
| Where (bool_expr true_expr false_null_expr : node)
| Value (name : string) (args : list node) (dtype : dt.t)
| Reduction (r : reduction_cls) (arg : node) (where_ : option node)
            (dtype : dt.t)
| CountStar (table : string) (where_ : option node)
| CumulativeOp (c : cumulative_cls) (arg : node) (dtype : dt.t)
| Analytic (a : analytic_cls) (args : list node) (dtype : dt.t)
| SortKey (key : SortKey_ node)
| WindowFunction (func : node) (frame : WindowFrame_ node).

Abbreviation WindowBoundary := (WindowBoundary_ node).
Abbreviation WindowFrame := (WindowFrame_ node).

(** Binary arithmetic is one of the [Value] classes. *)
Definition Multiply (left right : node) (dtype : dt.t) : node :=
  Value "Multiply" [left; right] dtype.

Definition type (op : node) : cls :=
  match op with
  | Literal _ _ => cLiteral
  | TableColumn _ _ _ => cTableColumn
  | Cast _ _ => cCast
  | Alias _ _ => cAlias
  | Where _ _ _ => cWhere
  | Value name _ _ => cValue name
  | Reduction r _ _ _ => cReduction r
  | CountStar _ _ => cCountStar
  | CumulativeOp c _ _ => cCumulative c
  | Analytic a _ _ => cAnalytic a
  | SortKey _ => cValue "SortKey"
  | WindowFunction _ _ => cWindowFunction
  end.

(** [isinstance(op, ops.Literal)] *)
Definition is_Literal (op : node) : bool :=
  match op with Literal _ _ => true | _ => false end.

(** [isinstance(op, ops.CumulativeOp)] *)
Definition is_CumulativeOp (op : node) : bool :=
  match op with CumulativeOp _ _ _ => true | _ => false end.

Fixpoint output_dtype (op : node) : dt.t :=
  match op with
  | Literal _ d => d
  | TableColumn _ _ d => d
  | Cast _ to => to
  | Alias arg _ => output_dtype arg
  | Where _ true_expr _ => output_dtype true_expr
  | Value _ _ d => d
  | Reduction _ _ _ d => d
  | CountStar _ _ => dt.Int64
  | CumulativeOp _ _ d => d
  | Analytic _ _ d => d
  | SortKey k => output_dtype (expr k)
  | WindowFunction func _ => output_dtype func
  end.

(** The values found among the arguments of a node. *)
Inductive argument : Type :=
| ANode (n : node)
| ANone
| APy (v : pyval)
| ADtype (d : dt.t)
| AStr (s : string)
| ABool (b : bool)
| ATable (name : string)
| AFrame (f : WindowFrame).

Definition opt_arg (o : option node) : argument :=
  match o with Some n => ANode n | None => ANone end.

(** [op.args]: the field values in declaration order. *)
Definition args (op : node) : list argument :=
  match op with
  | Literal v d => [APy v; ADtype d]
  | TableColumn t n _ => [ATable t; AStr n]
  | Cast arg to => [ANode arg; ADtype to]
  | Alias arg name => [ANode arg; AStr name]
  | Where b t f => [ANode b; ANode t; ANode f]
  | Value _ l _ => ANode <$> l
  | Reduction _ arg w _ => [ANode arg; opt_arg w]
  | CountStar table w => [ATable table; opt_arg w]
  | CumulativeOp _ arg _ => [ANode arg]
  | Analytic _ l _ => ANode <$> l
  | SortKey k => [ANode (expr k); ABool (ascending k)]
  | WindowFunction func frame => [ANode func; AFrame frame]
  end.

End ops.

Coercion ops.ANode : ops.node >-> ops.argument.

(** ** [ibis/backends/base/sql/registry/window.py] *)

Module window.

Import ops.

(** What the rules of this file use of the translator object.  [translate]
    dispatches on the class of its argument through the backend's registry;
    [_rewrites] is a dict from class to rewrite rule; [_require_order_by] and
    [_forbids_frame_clause] are tuples of classes, used only through
    [isinstance]. *)
Record translator : Type := mkTranslator
  { translate : ops.argument → res string;
    _rewrites : ops.cls → option (ops.node → res ops.node);
    _require_order_by : ops.cls → bool;
    _forbids_frame_clause : ops.cls → bool }.

Definition _map_interval_to_microseconds : gmap string Z :=
  list_to_map
    [ ("W", 604800000000); ("D", 86400000000); ("h", 3600000000);
      ("m", 60000000); ("s", 1000000); ("ms", 1000); ("us", 1) ].

Definition _cumulative_to_reduction (c : cumulative_cls) : reduction_cls :=
  match c with
  | CumulativeSum => Sum
  | CumulativeMin => Min
  | CumulativeMax => Max
  | CumulativeMean => Mean
  | CumulativeAny => Any
  | CumulativeAll => All
  end.

(** A bare Python int given as a frame boundary becomes a boundary around
    the literal of its absolute value, preceding when the int is negative. *)
Definition boundary_of_int (z : Z) : WindowBoundary :=
  mkWindowBoundary (Literal (PyInt (Z.abs z)) (dt.infer_integer (Z.abs z)))
                   (z <? 0).

(** [frame.copy(start=None, end=0)] *)
Definition copy_start_end (frame : WindowFrame) (s e : option WindowBoundary)
  : WindowFrame :=
  mkWindowFrame (frame_type frame) (group_by frame) (order_by frame)
                s e (max_lookback frame).

(** [frame.copy(order_by=...)] *)
Definition copy_order_by (frame : WindowFrame) (o : list (SortKey_ node))
  : WindowFrame :=
  mkWindowFrame (frame_type frame) (group_by frame) o
                (start frame) (end_ frame) (max_lookback frame).

(** [frame.copy(order_by=..., start=..., end=...)] *)
Definition copy_order_by_start_end (frame : WindowFrame)
    (o : list (SortKey_ node)) (s e : option WindowBoundary) : WindowFrame :=
  mkWindowFrame (frame_type frame) (group_by frame) o s e (max_lookback frame).

(** [frame.how] *)
Definition how (frame : WindowFrame) : string :=
  match frame_type frame with
  | RowsWindowFrame => "rows"
  | RangeWindowFrame => "range"
  end.

(** [s.upper()] on the two values of [how] *)
Definition upper (s : string) : string :=
  if String.eqb s "rows" then "ROWS"
  else if String.eqb s "range" then "RANGE"
  else s.

(** [op.arg] *)
Definition arg_of (op : node) : res node :=
  match op with
  | Cast a _ | Alias a _ | Reduction _ a _ _ | CumulativeOp _ a _ => Ok a
  | Analytic _ (a :: _) _ => Ok a
  | _ => Raise (com.AttributeError "arg")
  end.

Section rules.

(** [an.windowize_function] of [ibis.expr.analysis], the class test
    [isinstance(_, ops.RankBase)] and the [repr] of a class are fixed by
    modules outside this file. *)
Variable windowize_function : node → WindowFrame → res node.
Variable RankBase : ops.cls → bool.
Variable class_repr : ops.cls → string.

(** [klass] applied to [func.args] builds the reduction over the one argument of the
    cumulative node, without a filter; the two have the same output type.
    A class outside [_cumulative_to_reduction] is a [KeyError]. *)
Definition cumulative_to_window (t : translator) (func : node)
    (frame : WindowFrame) : res node :=
  match func with
  | CumulativeOp c a d =>
      let func := Reduction (_cumulative_to_reduction c) a None d in
      func ← match _rewrites t (ops.type func) with
             | None => Ok func
             | Some rule => rule func
             end;
      let frame := copy_start_end frame None (Some (boundary_of_int 0)) in
      windowize_function func frame
  | _ => Raise (com.KeyError (class_repr (ops.type func)))
  end.

(** The output type of a boundary is that of its value.  The multiplier
    given to [ops.Multiply] is a Python int, which becomes a literal. *)
Definition interval_boundary_to_integer (boundary : option WindowBoundary)
  : res (option WindowBoundary) :=
  match boundary with
  | None => Ok None
  | Some b =>
      if dt.is_numeric (output_dtype (value b)) then Ok (Some b)
      else
        let v := value b in
        unit ← dt.unit (output_dtype v);
        multiplier ←
          match _map_interval_to_microseconds !! unit with
          | Some m => Ok m
          | None =>
              Raise (com.IbisInputError ("Unsupported interval unit: " +:+ unit))
          end;
        v' ← match v with
             | Literal x _ =>
                 x' ← py_mul x multiplier; Ok (Literal x' dt.int64)
             | _ =>
                 let left := Cast v dt.int64 in
                 Ok (Multiply left
                       (Literal (PyInt multiplier) (dt.infer_integer multiplier))
                       dt.int64)
             end;
        Ok (Some (mkWindowBoundary v' (preceding b)))
  end.

Definition time_range_to_range_window (frame : WindowFrame) : res WindowFrame :=
  if decide (1 < length (order_by frame))%nat then
    Raise (com.IbisInputError
             ("Expected 1 order-by variable, got "
                +:+ pretty (length (order_by frame))))
  else
    match order_by frame with
    | [] => Raise (com.IndexError "tuple index out of range")
    | k :: _ =>
        let k := mkSortKey (Cast (expr k) dt.int64) (ascending k) in
        s ← interval_boundary_to_integer (start frame);
        e ← interval_boundary_to_integer (end_ frame);
        Ok (copy_order_by_start_end frame [k] s e)
    end.

(** [isinstance(v, ops.Literal) and v.value == 0] *)
Definition is_literal_zero (v : node) : bool :=
  match v with
  | Literal x _ => py_eq_zero x
  | _ => false
  end.

Definition format_window_boundary (t : translator) (boundary : WindowBoundary)
  : res string :=
  if is_literal_zero (value boundary) then Ok "CURRENT ROW"
  else
    v ← translate t (value boundary);
    let direction := if preceding boundary then "PRECEDING" else "FOLLOWING" in
    Ok (v +:+ " " +:+ direction).

(** [sep.join(parts)] *)
Definition join (sep : string) (parts : list string) : string :=
  String.concat sep parts.

(** Truth value of a tuple: empty is false. *)
Definition nonempty {A} (l : list A) : bool :=
  match l with [] => false | _ :: _ => true end.

Definition format_window_frame (t : translator) (func : node)
    (frame : WindowFrame) : res string :=
  let components := [] in
  components ←
    (if nonempty (group_by frame) then
       partition_args ← mapM (λ x : node, translate t x) (group_by frame);
       Ok (components ++ ["PARTITION BY " +:+ join ", " partition_args])
     else Ok components);
  components ←
    (if nonempty (order_by frame) then
       order_args ← mapM (λ k, translate t (SortKey k)) (order_by frame);
       Ok (components ++ ["ORDER BY " +:+ join ", " order_args])
     else Ok components);
  components ←
    match start frame, end_ frame with
    | None, None => Ok components
    | s, e =>
        if negb (_forbids_frame_clause t (ops.type func)) then
          start ← match s with
                  | None => Ok "UNBOUNDED PRECEDING"
                  | Some b => format_window_boundary t b
                  end;
          end_ ← match e with
                 | None => Ok "UNBOUNDED FOLLOWING"
                 | Some b => format_window_boundary t b
                 end;
          Ok (components ++
                [upper (how frame) +:+ " BETWEEN " +:+ start +:+ " AND " +:+ end_])
        else Ok components
    end;
  Ok ("OVER (" +:+ join " " components +:+ ")").

Definition _unsupported_reductions (c : ops.cls) : bool :=
  match c with
  | cReduction ApproxMedian
  | cReduction GroupConcat
  | cReduction ApproxCountDistinct => true
  | _ => false
  end.

Definition window (t : translator) (op : node) : res string :=
  match op with
  | WindowFunction func frame0 =>
      if _unsupported_reductions (ops.type func) then
        Raise (com.UnsupportedOperationError
                 (class_repr (ops.type func)
                    +:+ " is not supported in window functions"))
      else if is_CumulativeOp func then
        arg ← cumulative_to_window t func frame0;
        translate t (ANode arg)
      else
        let frame := frame0 in
        frame ←
          (if _require_order_by t (ops.type func) && negb (nonempty (order_by frame))
           then a ← arg_of func; Ok (copy_order_by frame [mkSortKey a true])
           else Ok frame);
        frame ←
          match frame_type frame with
          | RangeWindowFrame =>
              if existsb (λ c, dt.is_temporal (output_dtype (expr c)))
                         (order_by frame)
              then time_range_to_range_window frame
              else Ok frame
          | RowsWindowFrame =>
              match max_lookback frame with
              | Some _ =>
                  Raise (com.NotImplementedError
                    "Rows with max lookback is not implemented for SQL-based backends.")
              | None => Ok frame
              end
          end;
        window_formatted ← format_window_frame t func frame;
        arg_formatted ← translate t func;
        let result := arg_formatted +:+ " " +:+ window_formatted in
        if RankBase (ops.type func) then Ok ("(" +:+ result +:+ " - 1)")
        else Ok result
  | _ => Raise (com.AttributeError "func")
  end.

End rules.

End window.

(** ** SQLAlchemy expressions

    The constructs of the [sqlalchemy] package that the rules build, as a
    syntax tree. *)

Module sa.

Inductive type_ : Type :=
| LargeBinary | SMALLINT | DATE | TIME
| dialect_type (name : string).

Inductive expr : Type :=
| literal (v : pyval)
| null
| func (name : string) (args : list expr)
| cast (e : expr) (ty : type_)
| case (whens : list (expr * expr)) (else_ : expr)
| filter (f : expr) (criterion : expr)
| over (f : expr) (partition_by : list expr) (order_by : expr + list expr)
       (frame : option (string * (option pyval * option pyval)))
| binary (operator : string) (left right : expr)
| select (columns : list expr)
| scalar (query : expr)
| column (name : string)
| asc (e : expr)
| desc (e : expr)
| distinct (e : expr).

(** [e.scalar_subquery()]: only selectables have the method. *)
Definition scalar_subquery (e : expr) : res expr :=
  match e with
  | select _ => Ok (scalar e)
  | _ => Raise (com.AttributeError "scalar_subquery")
  end.

(** [e - 1] *)
Definition sub (e : expr) (k : Z) : expr := binary "-" e (literal (PyInt k)).

End sa.

(** ** [ibis/backends/base/sql/alchemy/registry.py] *)

Module alchemy.

Import ops.

(** What the rules of this file use of the translator object:
    [translate] and the dialect's capability flags and helpers. *)
Record translator : Type := mkTranslator
  { translate : ops.argument → res sa.expr;
    _rewrites : ops.cls → option (ops.node → res ops.node);
    _require_order_by : ops.cls → bool;
    _forbids_frame_clause : ops.cls → bool;
    _has_reduction_filter_syntax : bool;
    native_json_type : bool;
    integer_to_timestamp : sa.expr → sa.expr;
    get_sqla_type : dt.t → sa.type_;
    _reduction : (list sa.expr → res sa.expr) → ops.node → res sa.expr }.

(** [with contextlib.suppress(AttributeError): x = m] *)
Definition suppress_AttributeError {A} (m : res A) (x : A) : res A :=
  match m with
  | Raise (com.AttributeError _) => Ok x
  | r => r
  end.

Definition _varargs_call (sa_func : list sa.expr → res sa.expr)
    (t : translator) (args : list ops.argument) : res sa.expr :=
  trans_args ←
    mapM (λ raw_arg,
            arg ← translate t raw_arg;
            suppress_AttributeError (sa.scalar_subquery arg) arg)
         args;
  sa_func trans_args.

Definition fixed_arity (sa_func : list sa.expr → res sa.expr) (arity : nat)
    (t : translator) (op : node) : res sa.expr :=
  let arg_count := length (ops.args op) in
  if decide (arity ≠ arg_count) then
    Raise (com.IbisError
             ("Incorrect number of args. Expected: " +:+ pretty arity
                +:+ ". Current: " +:+ pretty arg_count))
  else _varargs_call sa_func t (ops.args op).

Definition unary (sa_func : list sa.expr → res sa.expr) :=
  fixed_arity sa_func 1.

Definition _cast (t : translator) (op : node) : res sa.expr :=
  match op with
  | Cast arg typ =>
      let arg_dtype := output_dtype arg in
      sa_arg ← translate t arg;
      if dt.is_integer arg_dtype && dt.is_timestamp typ then
        Ok (integer_to_timestamp t sa_arg)
      else if dt.is_binary arg_dtype && dt.is_string typ then
        Ok (sa.func "encode" [sa_arg; sa.literal (PyStr "escape")])
      else if dt.is_binary typ then
        Ok (sa.cast sa_arg sa.LargeBinary)
      else if dt.is_json typ && negb (native_json_type t) then
        Ok sa_arg
      else
        Ok (sa.cast sa_arg (get_sqla_type t typ))
  | _ => Raise (com.AttributeError "arg")
  end.

(** Set and array literals are outside [pyval]. *)
Definition _literal (t : translator) (op : node) : res sa.expr :=
  match op with
  | Literal PyNone _ => Ok sa.null
  | Literal v _ => Ok (sa.literal v)
  | _ => Raise (com.AttributeError "value")
  end.

(** The rule registered for [ops.Where]. *)
Definition _where : translator → node → res sa.expr :=
  fixed_arity
    (λ a, match a with
          | [predicate; value_if_true; value_if_false] =>
              Ok (sa.case [(predicate, value_if_true)] value_if_false)
          | _ => Raise (com.TypeError "<lambda>() takes 3 positional arguments")
          end)
    3.

(** [ops.Where(where, 1, None)]: the two Python scalars become literals. *)
Definition Where_1_None (where_ : node) : node :=
  Where where_ (Literal (PyInt 1) dt.int8) (Literal PyNone dt.Null).

Definition _count_star (t : translator) (op : node) : res sa.expr :=
  match op with
  | CountStar _ where_ =>
      match where_ with
      | None => Ok (sa.func "count" [])
      | Some where_ =>
          if _has_reduction_filter_syntax t then
            p ← translate t where_;
            Ok (sa.filter (sa.func "count" []) p)
          else
            c ← translate t (Where_1_None where_);
            Ok (sa.func "count" [c])
      end
  | _ => Raise (com.AttributeError "where")
  end.

Definition _cumulative_to_reduction (c : cumulative_cls) : reduction_cls :=
  match c with
  | CumulativeSum => Sum
  | CumulativeMin => Min
  | CumulativeMax => Max
  | CumulativeMean => Mean
  | CumulativeAny => Any
  | CumulativeAll => All
  end.

Definition _translate_window_boundary (boundary : option WindowBoundary)
  : res (option pyval) :=
  match boundary with
  | None => Ok None
  | Some b =>
      match value b with
      | Literal v _ =>
          if preceding b then v' ← py_neg v; Ok (Some v')
          else Ok (Some v)
      | _ =>
          Raise (com.TranslationError "Window boundaries must be literal values")
      end
  end.

Section rules.

(** [an.windowize_function] of [ibis.expr.analysis] and the [name] property
    of a node are fixed by modules outside this file. *)
Variable windowize_function : node → WindowFrame → res node.
Variable get_name : node → string.
Variable class_repr : ops.cls → string.

Definition _cumulative_to_window (t : translator) (op : node)
    (frame : WindowFrame) : res node :=
  match op with
  | CumulativeOp c a d =>
      let new_op := Reduction (_cumulative_to_reduction c) a None d in
      let new_expr := Alias new_op (get_name op) in
      let new_frame :=
        window.copy_start_end frame None (Some (window.boundary_of_int 0)) in
      new_expr ← match _rewrites t (ops.type new_op) with
                 | Some rule => rule new_expr
                 | None => Ok new_expr
                 end;
      windowize_function new_expr new_frame
  | _ => Raise (com.KeyError (class_repr (ops.type op)))
  end.

(** [isinstance(f, (ops.RowNumber, ops.DenseRank, ops.MinRank, ops.NTile))] *)
Definition is_zero_based_rank (c : ops.cls) : bool :=
  match c with
  | cAnalytic RowNumber | cAnalytic DenseRank
  | cAnalytic MinRank | cAnalytic NTile => true
  | _ => false
  end.

Definition _window_function (t : translator) (window : node) : res sa.expr :=
  match window with
  | WindowFunction func frame =>
      if is_CumulativeOp func then
        f ← _cumulative_to_window t func frame;
        translate t (ANode f)
      else
        reduction ← translate t func;
        order_by ←
          (if _require_order_by t (ops.type func)
                && negb (window.nonempty (order_by frame))
           then a ← window.arg_of func; r ← translate t (ANode a); Ok (inl r)
           else l ← mapM (λ k, translate t (SortKey k)) (order_by frame);
                Ok (inr l));
        partition_by ← mapM (λ x : node, translate t x) (group_by frame);
        how ←
          match frame_type frame with
          | RowsWindowFrame =>
              match max_lookback frame with
              | Some _ =>
                  Raise (com.NotImplementedError
                    "Rows with max lookback is not implemented for SQLAlchemy-based backends.")
              | None => Ok "rows"
              end
          | RangeWindowFrame => Ok "range_"
          end;
        additional_params ←
          (if _forbids_frame_clause t (ops.type func) then Ok None
           else
             start ← _translate_window_boundary (start frame);
             end_ ← _translate_window_boundary (end_ frame);
             Ok (Some (how, (start, end_))));
        let result := sa.over reduction partition_by order_by additional_params in
        if is_zero_based_rank (ops.type func) then Ok (sa.sub result 1)
        else Ok result
  | _ => Raise (com.AttributeError "func")
  end.


(** Calling a Python function of a fixed number of parameters on a list of
    positional arguments. *)
Definition call0 (f : sa.expr) (a : list sa.expr) : res sa.expr :=
  match a with
  | [] => Ok f
  | _ => Raise (com.TypeError "takes 0 positional arguments")
  end.

Definition call1 (f : sa.expr → sa.expr) (a : list sa.expr) : res sa.expr :=
  match a with
  | [x] => Ok (f x)
  | _ => Raise (com.TypeError "takes 1 positional argument")
  end.

Definition call2 (f : sa.expr → sa.expr → sa.expr) (a : list sa.expr)
  : res sa.expr :=
  match a with
  | [x; y] => Ok (f x y)
  | _ => Raise (com.TypeError "takes 2 positional arguments")
  end.

(** [sa.func.<name>] accepts any number of arguments. *)
Definition sa_func (name : string) (a : list sa.expr) : res sa.expr :=
  Ok (sa.func name a).

Definition _alias (t : translator) (op : node) : res sa.expr :=
  match op with
  | Alias arg _ => translate t arg
  | _ => Raise (com.AttributeError "arg")
  end.

Definition _sort_key (t : translator) (op : node) : res sa.expr :=
  match op with
  | SortKey k =>
      e ← translate t (expr k);
      Ok (if ascending k then sa.asc e else sa.desc e)
  | _ => Raise (com.AttributeError "ascending")
  end.

Definition _ntile (t : translator) (op : node) : res sa.expr :=
  match op with
  | Analytic NTile [_; buckets] _ =>
      b ← translate t buckets; Ok (sa.func "ntile" [b])
  | _ => Raise (com.AttributeError "buckets")
  end.

Definition reduction (sa_func : list sa.expr → res sa.expr)
    (t : translator) (op : node) : res sa.expr :=
  _reduction t sa_func op.

Definition rule : Type := translator → node → res sa.expr.

(** The entries of [sqlalchemy_operation_registry] for the classes of
    [ops.cls]. *)
Definition sqlalchemy_operation_registry (c : ops.cls) : option rule :=
  match c with
  | cAlias => Some _alias
  | cCast => Some _cast
  | cLiteral => Some _literal
  | cWhere => Some _where
  | cCountStar => Some _count_star
  | cReduction Count => Some (reduction (sa_func "count"))
  | cReduction Sum => Some (reduction (sa_func "sum"))
  | cReduction Mean => Some (reduction (sa_func "avg"))
  | cReduction Min => Some (reduction (sa_func "min"))
  | cReduction Max => Some (reduction (sa_func "max"))
  | cReduction CountDistinct =>
      Some (reduction (call1 (λ arg, sa.func "count" [sa.distinct arg])))
  | cReduction ApproxCountDistinct =>
      Some (reduction (call1 (λ arg, sa.func "count" [sa.distinct arg])))
  | cReduction GroupConcat => Some (reduction (sa_func "group_concat"))
  | cValue name =>
      if String.eqb name "SortKey" then Some _sort_key
      else if String.eqb name "Add" then Some (fixed_arity (call2 (sa.binary "+")) 2)
      else if String.eqb name "Subtract" then Some (fixed_arity (call2 (sa.binary "-")) 2)
      else if String.eqb name "Multiply" then Some (fixed_arity (call2 (sa.binary "*")) 2)
      else if String.eqb name "Equals" then Some (fixed_arity (call2 (sa.binary "=")) 2)
      else if String.eqb name "Less" then Some (fixed_arity (call2 (sa.binary "<")) 2)
      else if String.eqb name "Greater" then Some (fixed_arity (call2 (sa.binary ">")) 2)
      else if String.eqb name "Abs" then Some (unary (sa_func "abs"))
      else if String.eqb name "NullIf" then Some (fixed_arity (sa_func "nullif") 2)
      else if String.eqb name "Pi" then Some (fixed_arity (sa_func "pi") 0)
      else None
  | _ => None
  end.

(** The entries of [sqlalchemy_window_functions_registry]. *)
Definition sqlalchemy_window_functions_registry (c : ops.cls) : option rule :=
  match c with
  | cAnalytic NTile => Some _ntile
  | cAnalytic FirstValue => Some (unary (sa_func "first_value"))
  | cAnalytic LastValue => Some (unary (sa_func "last_value"))
  | cAnalytic RowNumber => Some (fixed_arity (sa_func "row_number") 0)
  | cAnalytic DenseRank => Some (unary (call1 (λ _, sa.func "dense_rank" [])))
  | cAnalytic MinRank => Some (unary (call1 (λ _, sa.func "rank" [])))
  | cAnalytic PercentRank => Some (unary (call1 (λ _, sa.func "percent_rank" [])))
  | cAnalytic CumeDist => Some (unary (call1 (λ _, sa.func "cume_dist" [])))
  | cWindowFunction => Some _window_function
  | cCumulative CumulativeMax => Some (unary (sa_func "max"))
  | cCumulative CumulativeMin => Some (unary (sa_func "min"))
  | cCumulative CumulativeSum => Some (unary (sa_func "sum"))
  | cCumulative CumulativeMean => Some (unary (sa_func "avg"))
  | cCumulative CumulativeAny => Some (unary (sa_func "bool_or"))
  | cCumulative CumulativeAll => Some (unary (sa_func "bool_and"))
  | _ => None
  end.

End rules.

End alchemy.

(** ** A small dialect

    Modelled from the spec: the Translator is not among the translated
    sources.  Its contract is that [translate] looks the class of the node up
    in the registry and invokes the rule found there, and fails for a class
    without a rule.  The two translators below do that, for a dialect with
    few operations, so that the rules can be run on concrete expressions.
    The recursion between [translate] and the rules is cut by a depth
    bound, as Python's recursion limit does. *)

Module demo.

Import ops.

(** Wraps the function, below an alias if there is one, in a window function
    over the frame. *)
Definition windowize_function (func : node) (frame : WindowFrame) : res node :=
  match func with
  | Alias a n => Ok (Alias (WindowFunction a frame) n)
  | _ => Ok (WindowFunction func frame)
  end.

Definition reduction_name (r : reduction_cls) : string :=
  match r with
  | Sum => "Sum" | Min => "Min" | Max => "Max" | Mean => "Mean"
  | Any => "Any" | All => "All" | Count => "Count"
  | CountDistinct => "CountDistinct" | ApproxMedian => "ApproxMedian"
  | GroupConcat => "GroupConcat" | ApproxCountDistinct => "ApproxCountDistinct"
  end.

Definition class_name (c : ops.cls) : string :=
  match c with
  | cLiteral => "Literal" | cTableColumn => "TableColumn" | cCast => "Cast"
  | cAlias => "Alias" | cWhere => "Where" | cValue n => n
  | cReduction r => reduction_name r
  | cCountStar => "CountStar"
  | cCumulative c => "Cumulative" +:+ reduction_name (window._cumulative_to_reduction c)
  | cAnalytic _ => "Analytic"
  | cWindowFunction => "WindowFunction"
  end.

Definition class_repr (c : ops.cls) : string :=
  "<class '" +:+ class_name c +:+ "'>".

Definition get_name (op : node) : string := class_name (ops.type op).

(** Modelled from the spec: the rank family is row-number, dense-rank,
    min-rank, percent-rank, cumulative-distribution and ntile. *)
Definition RankBase (c : ops.cls) : bool :=
  match c with
  | cAnalytic RowNumber | cAnalytic DenseRank | cAnalytic MinRank
  | cAnalytic PercentRank | cAnalytic CumeDist | cAnalytic NTile => true
  | _ => false
  end.

Definition _require_order_by (c : ops.cls) : bool :=
  match c with
  | cAnalytic DenseRank | cAnalytic MinRank | cAnalytic NTile
  | cAnalytic PercentRank | cAnalytic CumeDist => true
  | _ => false
  end.

Definition _forbids_frame_clause (c : ops.cls) : bool :=
  match c with
  | cAnalytic DenseRank | cAnalytic MinRank | cAnalytic NTile
  | cAnalytic PercentRank | cAnalytic CumeDist | cAnalytic RowNumber => true
  | _ => false
  end.

Definition no_rewrites (c : ops.cls) : option (node → res node) := None.

(** *** Strings *)

Definition sql_function (name : string) (args : list string) : string :=
  name +:+ "(" +:+ String.concat ", " args +:+ ")".

Fixpoint translate_string (fuel : nat) (a : argument) : res string :=
  match fuel with
  | O => Raise com.RecursionError
  | S fuel =>
      let t := window.mkTranslator (translate_string fuel) no_rewrites
                 _require_order_by _forbids_frame_clause in
      match a with
      | ANode (Literal (PyInt z) _) => Ok (pretty z)
      | ANode (Literal PyNone _) => Ok "NULL"
      | ANode (TableColumn _ n _) => Ok ("`" +:+ n +:+ "`")
      | ANode (Cast x _) =>
          s ← window.translate t x; Ok ("CAST(" +:+ s +:+ " AS bigint)")
      | ANode (SortKey k) =>
          s ← window.translate t (expr k);
          Ok (if ascending k then s else s +:+ " DESC")
      | ANode (Reduction r x None _) =>
          s ← window.translate t x;
          Ok (sql_function (reduction_name r) [s])
      | ANode (Analytic RowNumber [] _) => Ok "row_number()"
      | ANode (Analytic MinRank [_] _) => Ok "rank()"
      | ANode (Analytic DenseRank [_] _) => Ok "dense_rank()"
      | ANode (WindowFunction _ _ as op) =>
          window.window windowize_function RankBase class_repr t op
      | ANode op =>
          Raise (com.OperationNotDefinedError (class_repr (ops.type op)))
      | _ => Raise (com.OperationNotDefinedError "not a node")
      end
  end.

Definition string_translator : window.translator :=
  window.mkTranslator (translate_string 16) no_rewrites
    _require_order_by _forbids_frame_clause.

(** *** SQLAlchemy *)

(** Modelled from the spec: the translator's compilation context is not
    among the translated sources, so this dialect renders a column
    reference as the column of that name.  It stands in for the rule the
    registry has for [ops.TableColumn], which finds the column through the
    context ([get_sqla_table] and [get_col], embedded in [context] below),
    sets its quoting and selects from a subquery for a table foreign to the
    current SELECT; here one table is in scope and none is foreign. *)
Definition column_by_name (t : alchemy.translator) (op : node) : res sa.expr :=
  match op with
  | TableColumn _ n _ => Ok (sa.column n)
  | _ => Raise (com.AttributeError "name")
  end.

Definition registry (c : ops.cls) : option alchemy.rule :=
  match c with
  | cTableColumn => Some column_by_name
  | _ =>
      match alchemy.sqlalchemy_operation_registry c with
      | Some r => Some r
      | None =>
          alchemy.sqlalchemy_window_functions_registry
            windowize_function get_name class_repr c
      end
  end.

(** The aggregate of the translated argument; only unfiltered reductions. *)
Definition _reduction (translate : argument → res sa.expr)
    (sa_func : list sa.expr → res sa.expr) (op : node) : res sa.expr :=
  match op with
  | Reduction _ x None _ => e ← translate x; sa_func [e]
  | _ => Raise (com.NotImplementedError "filtered reduction")
  end.

Definition get_sqla_type (d : dt.t) : sa.type_ :=
  match d with
  | dt.Date => sa.DATE
  | dt.Time => sa.TIME
  | dt.Int16 => sa.SMALLINT
  | dt.Int64 => sa.dialect_type "BIGINT"
  | dt.String => sa.dialect_type "TEXT"
  | dt.Timestamp => sa.dialect_type "TIMESTAMP"
  | dt.JSON => sa.dialect_type "JSON"
  | _ => sa.dialect_type "other"
  end.

Definition integer_to_timestamp (e : sa.expr) : sa.expr :=
  sa.func "to_timestamp" [e].

Section dialect.

Variable has_filter_syntax native_json : bool.

Fixpoint translate (fuel : nat) (a : argument) : res sa.expr :=
  match fuel with
  | O => Raise com.RecursionError
  | S fuel =>
      let t := alchemy.mkTranslator (translate fuel) no_rewrites
                 _require_order_by _forbids_frame_clause
                 has_filter_syntax native_json
                 integer_to_timestamp get_sqla_type
                 (_reduction (translate fuel)) in
      match a with
      | ANode op =>
          match registry (ops.type op) with
          | Some rule => rule t op
          | None =>
              Raise (com.OperationNotDefinedError (class_repr (ops.type op)))
          end
      | _ => Raise (com.OperationNotDefinedError "not a node")
      end
  end.

Definition translator : alchemy.translator :=
  alchemy.mkTranslator (translate 16) no_rewrites
    _require_order_by _forbids_frame_clause
    has_filter_syntax native_json
    integer_to_timestamp get_sqla_type
    (_reduction (translate 16)).

End dialect.




(** Some expressions to run the rules on. *)
Definition x : node := TableColumn "t" "x" dt.Int64.
Definition ts : node := TableColumn "t" "ts" dt.Timestamp.
Definition s : node := TableColumn "t" "s" dt.String.
Definition int_literal (z : Z) : node := Literal (PyInt z) (dt.infer_integer z).
Definition Greater (l r : node) : node := Value "Greater" [l; r] dt.Boolean.
Definition interval (z : Z) (unit : string) : node :=
  Literal (PyInt z) (dt.Interval unit).
Definition preceding (v : node) : WindowBoundary := mkWindowBoundary v true.
Definition following (v : node) : WindowBoundary := mkWindowBoundary v false.
Definition asc (e : node) : SortKey_ node := mkSortKey e true.
Definition rows (g : list node) (o : list (SortKey_ node))
    (s e : option WindowBoundary) : WindowFrame :=
  mkWindowFrame RowsWindowFrame g o s e None.
Definition range (g : list node) (o : list (SortKey_ node))
    (s e : option WindowBoundary) : WindowFrame :=
  mkWindowFrame RangeWindowFrame g o s e None.

End demo.

(** ** The specification's side

    Definitions that follow the words of the specification, to be compared
    with the rules above. *)

Module spec.

Import ops.

(** Microseconds per unit: week, day, hour, minute, second, millisecond,
    microsecond; no other unit has a factor. *)
Definition microseconds_per (unit : string) : option Z :=
  if String.eqb unit "W" then Some 604800000000
  else if String.eqb unit "D" then Some 86400000000
  else if String.eqb unit "h" then Some 3600000000
  else if String.eqb unit "m" then Some 60000000
  else if String.eqb unit "s" then Some 1000000
  else if String.eqb unit "ms" then Some 1000
  else if String.eqb unit "us" then Some 1
  else None.

(** The normalized form of a boundary of a temporal range frame: an absent
    boundary stays absent, a numeric one is unchanged, and a literal interval
    is multiplied by the factor of its unit.  [None] where the specification
    promises no boundary. *)
Definition normalized_boundary (b : option WindowBoundary)
  : option (option WindowBoundary) :=
  match b with
  | None => Some None
  | Some b =>
      if dt.is_numeric (output_dtype (value b)) then Some (Some b)
      else
        match value b with
        | Literal (PyInt n) (dt.Interval u) =>
            match microseconds_per u with
            | Some f =>
                Some (Some (mkWindowBoundary (Literal (PyInt (n * f)) dt.int64)
                                             (preceding b)))
            | None => None
            end
        | _ => None
        end
  end.




(** The rank family. *)
Definition rank_family (a : analytic_cls) : bool :=
  match a with
  | RowNumber | DenseRank | MinRank | PercentRank | CumeDist | NTile => true
  | _ => false
  end.

(** The reductions rejected inside windows. *)
Definition rejected_in_window (r : reduction_cls) : bool :=
  match r with
  | ApproxMedian | GroupConcat | ApproxCountDistinct => true
  | _ => false
  end.

(** The scalar-subquery form of a fragment that is a full query. *)
Definition coerced (e : sa.expr) : sa.expr :=
  match e with
  | sa.select _ => sa.scalar e
  | _ => e
  end.

(** The PARTITION BY and ORDER BY parts of an OVER clause. *)
Definition keys_text (frame : WindowFrame) (ps os : list string) : list string :=
  (if window.nonempty (group_by frame)
   then ["PARTITION BY " +:+ String.concat ", " ps] else [])
  ++ (if window.nonempty (order_by frame)
      then ["ORDER BY " +:+ String.concat ", " os] else []).

Definition over_text (parts : list string) : string :=
  "OVER (" +:+ String.concat " " parts +:+ ")".

Definition how_text (frame : WindowFrame) : string :=
  match frame_type frame with
  | RowsWindowFrame => "ROWS"
  | RangeWindowFrame => "RANGE"
  end.

Definition between_text (frame : WindowFrame) (s e : string) : string :=
  how_text frame +:+ " BETWEEN " +:+ s +:+ " AND " +:+ e.



End spec.

(** ** Further rules

    The rules of the two files beside the ones above: lag and lead in both
    files, the variadic helper, the variance reductions, and the lookup of
    tables and columns. *)

Module shift.

Import ops.

(** [ops.Lag] and [ops.Lead]: the argument, and an optional offset and
    default. *)
Record ShiftBase : Type := mkShiftBase
  { arg : node; offset : option node; default : option node }.

(** [name(a, b, ...)] *)
Definition call (name : string) (args : list string) : string :=
  name +:+ "(" +:+ String.concat ", " args +:+ ")".

(** [shift_like(name)] of [window.py] *)
Definition shift_like (name : string) (t : window.translator) (op : ShiftBase)
  : res string :=
  arg_formatted ← window.translate t (arg op);
  match default op with
  | Some d =>
      offset_formatted ←
        match offset op with
        | None => Ok "1"
        | Some o => window.translate t o
        end;
      default_formatted ← window.translate t d;
      Ok (call name [arg_formatted; offset_formatted; default_formatted])
  | None =>
      match offset op with
      | Some o =>
          offset_formatted ← window.translate t o;
          Ok (call name [arg_formatted; offset_formatted])
      | None => Ok (call name [arg_formatted])
      end
  end.

(** [_lag] and [_lead] of [alchemy/registry.py]; a missing offset is the
    Python int 1, which SQLAlchemy takes as a literal. *)
Definition _shift (name : string) (t : alchemy.translator) (op : ShiftBase)
  : res sa.expr :=
  match default op with
  | Some _ => Raise (com.NotImplementedError "")
  | None =>
      sa_arg ← alchemy.translate t (arg op);
      sa_offset ← match offset op with
                  | Some o => alchemy.translate t o
                  | None => Ok (sa.literal (PyInt 1))
                  end;
      Ok (sa.func name [sa_arg; sa_offset])
  end.

Definition _lag : alchemy.translator → ShiftBase → res sa.expr := _shift "lag".
Definition _lead : alchemy.translator → ShiftBase → res sa.expr := _shift "lead".

End shift.

Module variadic.

Import ops.

(** [varargs(sa_func)]: the rule of a node whose [arg] is a tuple of
    nodes. *)
Definition varargs (sa_func : list sa.expr → res sa.expr)
    (t : alchemy.translator) (arg : list node) : res sa.expr :=
  alchemy._varargs_call sa_func t (ANode <$> arg).

End variadic.

Module variance.

Import ops.

(** [ops.Variance] and [ops.StandardDev]: the argument, [how] and an
    optional filter. *)
Record VarianceBase : Type := mkVarianceBase
  { arg : node; how : string; where_ : option node }.

Definition suffix : gmap string string :=
  list_to_map [("sample", "samp"); ("pop", "pop")].

Definition is_boolean (d : dt.t) : bool :=
  match d with dt.Boolean => true | _ => false end.

(** [variance_reduction(func_name)]; [getattr(sa.func, name)] is the SQL
    function of that name, and the [None] given to [ops.Where] becomes the
    null literal. *)
Definition variance_reduction (func_name : string)
    (t : alchemy.translator) (op : VarianceBase) : res sa.expr :=
  let a := arg op in
  let a := if is_boolean (output_dtype a) then Cast (arg op) dt.Int32 else a in
  func ← match suffix !! how op with
         | Some s => Ok (func_name +:+ "_" +:+ s)
         | None => Raise (com.KeyError (how op))
         end;
  let a := match where_ op with
           | Some w => Where w a (Literal PyNone dt.Null)
           | None => a
           end in
  e ← alchemy.translate t a;
  Ok (sa.func func [e]).

End variance.

Module context.

(** Modelled from the spec: the compilation context is not among the
    translated sources.  A scope binds table expressions, named here by a
    string, to SQL references; a context is its own scope and the scopes of
    its parents, outward, the last one being the root, which is its own
    parent.  [get_ref] is the binding of a table in one scope, and
    [has_ref] with [parent_contexts] searches the chain. *)
Record t : Type := mk
  { table_refs : gmap string sa.expr;
    parents : list (gmap string sa.expr);
    get_compiled_expr : string → res sa.expr }.

Definition get_ref (scope : gmap string sa.expr) (table : string)
  : option sa.expr := scope !! table.

Definition has_ref (ctx : t) (table : string) (parent_contexts : bool) : bool :=
  bool_decide (is_Some (get_ref (table_refs ctx) table))
  || (parent_contexts
      && existsb (λ s, bool_decide (is_Some (get_ref s table))) (parents ctx)).

(** A table expression: an [AlchemyTable], which carries its SQLAlchemy
    table, or another relation. *)
Inductive table : Type :=
| AlchemyTable (name : string) (sqla_table : sa.expr)
| relation (name : string).

Definition table_name (tb : table) : string :=
  match tb with AlchemyTable n _ | relation n => n end.

(** The loop of [get_sqla_table]: from a scope outward, until a binding is
    found or the root has been asked. *)
Fixpoint walk (ctx_level : gmap string sa.expr)
    (outward : list (gmap string sa.expr)) (table : string) : option sa.expr :=
  match get_ref ctx_level table with
  | Some sa_table => Some sa_table
  | None =>
      match outward with
      | [] => None
      | parent :: outward => walk parent outward table
      end
  end.

Definition get_sqla_table (ctx : t) (tb : table) : res (option sa.expr) :=
  if has_ref ctx (table_name tb) true then
    Ok (walk (table_refs ctx) (parents ctx) (table_name tb))
  else
    match tb with
    | AlchemyTable _ sqla_table => Ok (Some sqla_table)
    | relation n => e ← get_compiled_expr ctx n; Ok (Some e)
    end.

(** A column collection: the exported columns in order, each under its
    key.  [cols.get(key)] is the column of that key or [None];
    [cols[i]] is the column at a position. *)
Definition cols_get (cols : list (string * sa.expr)) (key : string)
  : option sa.expr :=
  snd <$> List.find (λ kc, String.eqb (fst kc) key) cols.

(** [get_col]; [name_locs] is the [_name_locs] of the schema of the table
    of the column: the position of each name. *)
Definition get_col (cols : list (string * sa.expr))
    (name_locs : gmap string nat) (colname : string) : res sa.expr :=
  match cols_get cols colname with
  | Some col => Ok col
  | None =>
      match name_locs !! colname with
      | None => Raise (com.KeyError colname)
      | Some colindex =>
          match cols !! colindex with
          | Some kc => Ok (snd kc)
          | None => Raise (com.IndexError "index out of range")
          end
      end
  end.

End context.

(** * Properties *)

Import ops.

(** ** The monad *)

(** Both sides evaluate to the fragment [v]. *)
Ltac through v := transitivity (@Ok sa.expr v); reflexivity.

Lemma bind_Ok {A B} (f : A → res B) (a : A) : (Ok a ≫= f) = f a.
Proof. reflexivity. Qed.

Lemma bind_Raise {A B} (f : A → res B) (e : com.exn) :
  (Raise e ≫= f) = Raise e.
Proof. reflexivity. Qed.

Lemma bind_Ok_inv {A B} (f : A → res B) (m : res A) (b : B) :
  (m ≫= f) = Ok b → ∃ a, m = Ok a ∧ f a = Ok b.
Proof. destruct m as [a|e]; [eauto | discriminate]. Qed.

Lemma is_Ok_true {A} (m : res A) : is_Ok m = true → ∃ a, m = Ok a.
Proof. destruct m; [eauto | discriminate]. Qed.

Lemma mapM_Ok {A B} (f : A → res B) (l : list A) (k : list B) :
  Forall2 (λ a b, f a = Ok b) l k → mapM f l = Ok k.
Proof.
  induction 1 as [|a b l k Hab _ IH]; [reflexivity|].
  cbn. rewrite Hab. cbn. rewrite IH. reflexivity.
Qed.

Lemma mapM_Ok_inv {A B} (f : A → res B) (l : list A) (k : list B) :
  mapM f l = Ok k → Forall2 (λ a b, f a = Ok b) l k.
Proof.
  revert k. induction l as [|a l IH]; intros k H; cbn in H.
  - injection H as <-. constructor.
  - apply bind_Ok_inv in H as (b & Hb & H).
    apply bind_Ok_inv in H as (k' & Hk' & H).
    injection H as <-. constructor; auto.
Qed.

(** The first argument that fails decides the outcome: the arguments before
    it were translated, the ones after it are not looked at. *)
Lemma mapM_Raise {A B} (f : A → res B) (l1 l2 : list A) (a : A) (e : com.exn) :
  Forall (λ x, is_Ok (f x) = true) l1 → f a = Raise e →
  mapM f (l1 ++ a :: l2) = Raise e.
Proof.
  induction 1 as [|x l1 Hx _ IH]; intros Ha; cbn.
  - rewrite Ha. reflexivity.
  - apply is_Ok_true in Hx as [b ->]. cbn.
    specialize (IH Ha). cbn in IH. rewrite IH. reflexivity.
Qed.

(** ** The window-frame normalizer ([window.py]) *)

(** The table of the code is the table of the specification. *)
Lemma interval_table (u : string) :
  window._map_interval_to_microseconds !! u = spec.microseconds_per u.
Proof.
  unfold window._map_interval_to_microseconds, spec.microseconds_per.
  cbn [list_to_map foldr uncurry fst snd].
  repeat match goal with
         | |- context [String.eqb u ?k] =>
             destruct (String.eqb_spec u k) as [->|?];
             [ vm_compute; reflexivity
             | rewrite lookup_insert_ne by congruence ]
         end.
  apply lookup_empty.
Qed.

Lemma interval_table_units :
  spec.microseconds_per "W" = Some 604800000000
  ∧ spec.microseconds_per "D" = Some 86400000000
  ∧ spec.microseconds_per "h" = Some 3600000000
  ∧ spec.microseconds_per "m" = Some 60000000
  ∧ spec.microseconds_per "s" = Some 1000000
  ∧ spec.microseconds_per "ms" = Some 1000
  ∧ spec.microseconds_per "us" = Some 1
  ∧ spec.microseconds_per "M" = None
  ∧ spec.microseconds_per "Q" = None
  ∧ spec.microseconds_per "Y" = None.
Proof. repeat split. Qed.

Lemma boundary_normalized (b b' : option WindowBoundary) :
  spec.normalized_boundary b = Some b' →
  window.interval_boundary_to_integer b = Ok b'.
Proof.
  destruct b as [[v p]|]; cbn; [|congruence].
  destruct (dt.is_numeric (output_dtype v)) eqn:Hnum; [congruence|].
  destruct v as [[| |n|] [] | | | | | | | | | | |]; try discriminate.
  cbn. rewrite interval_table.
  destruct (spec.microseconds_per unit) as [f|]; [|discriminate].
  intros [= <-]. reflexivity.
Qed.

(** A boundary that is an expression rather than a literal is cast to
    int64 and multiplied by the factor. *)
Lemma expression_boundary_scaled (v : node) (p : bool) (u : string) (f : Z) :
  ops.is_Literal v = false → output_dtype v = dt.Interval u →
  spec.microseconds_per u = Some f →
  window.interval_boundary_to_integer (Some (mkWindowBoundary v p))
  = Ok (Some (mkWindowBoundary
                (Multiply (Cast v dt.int64)
                          (Literal (PyInt f) (dt.infer_integer f)) dt.int64)
                p)).
Proof.
  intros Hlit Hd Hf. cbn. rewrite Hd. cbn. rewrite interval_table, Hf. cbn.
  destruct v; try discriminate; reflexivity.
Qed.

Lemma unsupported_unit (b : WindowBoundary) (u : string) :
  output_dtype (value b) = dt.Interval u → spec.microseconds_per u = None →
  window.interval_boundary_to_integer (Some b)
  = Raise (com.IbisInputError ("Unsupported interval unit: " +:+ u)).
Proof.
  intros Hd Hu. cbn. rewrite Hd. cbn. rewrite interval_table, Hu. reflexivity.
Qed.

Lemma time_range_single_key (frame : WindowFrame) (k : SortKey_ node) :
  order_by frame = [k] →
  window.time_range_to_range_window frame
  = (s ← window.interval_boundary_to_integer (start frame);
     e ← window.interval_boundary_to_integer (end_ frame);
     Ok (mkWindowFrame (frame_type frame) (group_by frame)
           [mkSortKey (Cast (expr k) dt.int64) (ascending k)] s e
           (max_lookback frame))).
Proof.
  intros Hk. unfold window.time_range_to_range_window. rewrite Hk. cbn.
  reflexivity.
Qed.

(** C3.  For a range frame ordered by one key, whose boundaries are absent,
    numeric, or literal intervals in one of the seven units, normalization
    returns a new frame: the order expression is cast to int64, an absent
    boundary stays absent, a numeric boundary is unchanged, and a literal
    interval is the literal multiplied by the microseconds of its unit
    (W=604800000000, D=86400000000, h=3600000000, m=60000000, s=1000000,
    ms=1000, us=1).  The window rule formats this frame in place of the
    original whenever the frame is a range frame and the key is temporal. *)
Theorem C3_time_range_normalized
    (frame : WindowFrame) (k : SortKey_ node) (s e : option WindowBoundary) :
  order_by frame = [k] →
  spec.normalized_boundary (start frame) = Some s →
  spec.normalized_boundary (end_ frame) = Some e →
  let frame' :=
    mkWindowFrame (frame_type frame) (group_by frame)
      [mkSortKey (Cast (expr k) dt.int64) (ascending k)] s e
      (max_lookback frame) in
  window.time_range_to_range_window frame = Ok frame'
  ∧ (frame_type frame = RangeWindowFrame →
     dt.is_temporal (output_dtype (expr k)) = true →
     ∀ windowize_function RankBase class_repr t func,
       ops.is_CumulativeOp func = false →
       window.window windowize_function RankBase class_repr t
         (WindowFunction func frame)
       = window.window windowize_function RankBase class_repr t
           (WindowFunction func frame')).
Proof.
  intros Hk Hs He frame'.
  assert (Hn : window.time_range_to_range_window frame = Ok frame').
  { rewrite (time_range_single_key frame k Hk).
    rewrite (boundary_normalized _ _ Hs), (boundary_normalized _ _ He).
    reflexivity. }
  split; [exact Hn|].
  intros Hrange Htemp wz RB cr t func Hcum.
  unfold window.window. rewrite Hcum.
  destruct (window._unsupported_reductions (ops.type func)); [reflexivity|].
  subst frame'. cbn [order_by window.nonempty negb frame_type].
  rewrite Hk. cbn [window.nonempty negb]. rewrite !andb_false_r.
  rewrite !bind_Ok. cbn [frame_type order_by existsb expr output_dtype].
  rewrite Hrange, Hk. cbn [existsb expr]. rewrite Htemp. cbn [orb].
  rewrite Hn, Hrange. reflexivity.
Qed.

(** A day-based boundary of 2 becomes the literal 172800000000. *)
Lemma C3_two_days :
  window.time_range_to_range_window
    (demo.range [] [demo.asc demo.ts]
       (Some (demo.preceding (demo.interval 2 "D"))) None)
  = Ok (demo.range [] [demo.asc (Cast demo.ts dt.int64)]
          (Some (demo.preceding (Literal (PyInt 172800000000) dt.int64))) None).
Proof.
  refine (proj1 (C3_time_range_normalized _ (demo.asc demo.ts) _ _ _ _ _));
    reflexivity.
Defined.

(** C4.  A boundary whose value has an interval type in a unit without a
    microsecond factor makes the normalization raise the input error that
    names the unit: for the boundary alone, and for a frame with one order
    key that has it as start, or as end behind a start that converts.  No
    frame that holds such a boundary is returned normalized. *)
Theorem C4_unsupported_unit_raises
    (frame : WindowFrame) (b : WindowBoundary) (u : string) :
  output_dtype (value b) = dt.Interval u →
  spec.microseconds_per u = None →
  let e := com.IbisInputError ("Unsupported interval unit: " +:+ u) in
  window.interval_boundary_to_integer (Some b) = Raise e
  ∧ (length (order_by frame) = 1%nat → start frame = Some b →
     window.time_range_to_range_window frame = Raise e)
  ∧ (length (order_by frame) = 1%nat → end_ frame = Some b →
     is_Ok (window.interval_boundary_to_integer (start frame)) = true →
     window.time_range_to_range_window frame = Raise e)
  ∧ (start frame = Some b ∨ end_ frame = Some b →
     is_Ok (window.time_range_to_range_window frame) = false).
Proof.
  intros Hd Hu e.
  pose proof (unsupported_unit b u Hd Hu) as Hb. fold e in Hb.
  assert (Hone : ∀ l : list (SortKey_ node), length l = 1%nat → ∃ k, l = [k]).
  { intros [|k [|??]] Hl; try discriminate. eauto. }
  repeat split.
  - exact Hb.
  - intros Hl Hs. destruct (Hone _ Hl) as [k Hk].
    rewrite (time_range_single_key frame k Hk), Hs, Hb. reflexivity.
  - intros Hl He Hs. destruct (Hone _ Hl) as [k Hk].
    rewrite (time_range_single_key frame k Hk), He, Hb.
    apply is_Ok_true in Hs as [s ->]. reflexivity.
  - intros Hse. unfold window.time_range_to_range_window.
    case_decide; [reflexivity|].
    destruct (order_by frame) as [|k l]; [reflexivity|].
    destruct Hse as [Hs|He].
    + rewrite Hs, Hb. reflexivity.
    + rewrite He, Hb.
      destruct (window.interval_boundary_to_integer (start frame)); reflexivity.
Qed.

(** A month-based boundary raises. *)
Lemma C4_month :
  window.time_range_to_range_window
    (demo.range [] [demo.asc demo.ts]
       (Some (demo.preceding (demo.interval 1 "M"))) None)
  = Raise (com.IbisInputError "Unsupported interval unit: M").
Proof.
  refine (proj1 (proj2 (C4_unsupported_unit_raises _
                          (demo.preceding (demo.interval 1 "M")) "M" _ _)) _ _);
    reflexivity.
Defined.

(** C10.  A frame with more than one order key is refused by the
    time-range conversion with the input error that reports the number of
    keys, whatever its boundaries are; and so by the window rule, for a range
    frame with a temporal key.  A frame that the conversion returns had
    exactly one order key. *)
Theorem C10_one_order_key (frame : WindowFrame) :
  let e := com.IbisInputError
             ("Expected 1 order-by variable, got "
                +:+ pretty (length (order_by frame))) in
  ((1 < length (order_by frame))%nat →
   window.time_range_to_range_window frame = Raise e
   ∧ ∀ windowize_function RankBase class_repr t func,
       frame_type frame = RangeWindowFrame →
       existsb (λ c, dt.is_temporal (output_dtype (expr c))) (order_by frame)
         = true →
       window._unsupported_reductions (ops.type func) = false →
       ops.is_CumulativeOp func = false →
       window.window windowize_function RankBase class_repr t
         (WindowFunction func frame) = Raise e)
  ∧ (∀ frame', window.time_range_to_range_window frame = Ok frame' →
     length (order_by frame) = 1%nat).
Proof.
  intros e. split.
  - intros Hlen.
    assert (Hn : window.time_range_to_range_window frame = Raise e).
    { unfold window.time_range_to_range_window. case_decide; [reflexivity|lia]. }
    split; [exact Hn|].
    intros wz RB cr t func Hrange Htemp Hunsup Hcum.
    unfold window.window. rewrite Hunsup, Hcum.
    assert (Hne : window.nonempty (order_by frame) = true).
    { destruct (order_by frame); [cbn in Hlen; lia | reflexivity]. }
    rewrite Hne. cbn [negb]. rewrite andb_false_r, bind_Ok.
    rewrite Hrange, Htemp, Hn. reflexivity.
  - intros frame'. unfold window.time_range_to_range_window.
    case_decide; [discriminate|].
    destruct (order_by frame) as [|k [|??]]; cbn in *; [discriminate|reflexivity|lia].
Qed.

Lemma C10_two_keys :
  window.time_range_to_range_window
    (demo.range [] [demo.asc demo.ts; demo.asc demo.x]
       (Some (demo.preceding (demo.interval 1 "M"))) None)
  = Raise (com.IbisInputError "Expected 1 order-by variable, got 2").
Proof.
  refine (proj1 (proj1 (C10_one_order_key _) _)). cbn. lia.
Defined.

(** ** Frame formatting ([window.py]) *)

Section frame_formatting.

Variable t : window.translator.

Lemma zero_boundary_is_current_row (d : dt.t) (p : bool) :
  window.format_window_boundary t
    (mkWindowBoundary (Literal (PyInt 0) d) p) = Ok "CURRENT ROW".
Proof. reflexivity. Qed.

Lemma nonzero_boundary_has_direction (n : Z) (d : dt.t) (p : bool) (v : string) :
  n ≠ 0 → window.translate t (Literal (PyInt n) d) = Ok v →
  window.format_window_boundary t (mkWindowBoundary (Literal (PyInt n) d) p)
  = Ok (v +:+ " " +:+ (if p then "PRECEDING" else "FOLLOWING")).
Proof.
  intros Hn Hv. unfold window.format_window_boundary. cbn.
  destruct (Z.eqb_spec n 0); [contradiction|].
  rewrite Hv. reflexivity.
Qed.

Lemma expression_boundary_has_direction (x : node) (p : bool) (v : string) :
  ops.is_Literal x = false → window.translate t x = Ok v →
  window.format_window_boundary t (mkWindowBoundary x p)
  = Ok (v +:+ " " +:+ (if p then "PRECEDING" else "FOLLOWING")).
Proof.
  intros Hx Hv. unfold window.format_window_boundary.
  destruct x; try discriminate; cbn; cbn in Hv; rewrite Hv; reflexivity.
Qed.

Lemma format_window_frame_keys (func : node) (frame : WindowFrame)
    (ps os : list string) :
  mapM (λ x : node, window.translate t x) (group_by frame) = Ok ps →
  mapM (λ k, window.translate t (SortKey k)) (order_by frame) = Ok os →
  window.format_window_frame t func frame
  = (components ←
       match start frame, end_ frame with
       | None, None => Ok (spec.keys_text frame ps os)
       | s, e =>
           if window._forbids_frame_clause t (ops.type func)
           then Ok (spec.keys_text frame ps os)
           else
             s ← match s with
                 | None => Ok "UNBOUNDED PRECEDING"
                 | Some b => window.format_window_boundary t b
                 end;
             e ← match e with
                 | None => Ok "UNBOUNDED FOLLOWING"
                 | Some b => window.format_window_boundary t b
                 end;
             Ok (spec.keys_text frame ps os ++ [spec.between_text frame s e])
       end;
     Ok (spec.over_text components)).
Proof.
  intros Hps Hos. unfold window.format_window_frame, spec.keys_text.
  rewrite Hps, Hos.
  assert (Hhow : window.upper (window.how frame) = spec.how_text frame).
  { unfold window.how, spec.how_text. destruct (frame_type frame); reflexivity. }
  unfold spec.between_text. rewrite <- Hhow.
  destruct (window.nonempty (group_by frame)),
           (window.nonempty (order_by frame)),
           (start frame), (end_ frame),
           (window._forbids_frame_clause t (ops.type func));
    reflexivity.
Qed.

End frame_formatting.

(** C5, as amended.  A boundary around the literal 0 is rendered
    "CURRENT ROW"; a boundary around another literal, such as 5, is rendered
    as the translated literal followed by PRECEDING or FOLLOWING.  In the
    OVER clause, the frame clause is left out when both boundaries are
    absent, and when the function is one of the dialect's frame-clause
    incompatible ones; otherwise an absent start is rendered
    "UNBOUNDED PRECEDING" and an absent end "UNBOUNDED FOLLOWING". *)
Theorem C5_frame_formatting
    (t : window.translator) (func : node) (frame : WindowFrame)
    (ps os : list string) :
  mapM (λ x : node, window.translate t x) (group_by frame) = Ok ps →
  mapM (λ k, window.translate t (SortKey k)) (order_by frame) = Ok os →
  let fmt := window.format_window_frame t func frame in
  let keys := spec.keys_text frame ps os in
  let forbidden := window._forbids_frame_clause t (ops.type func) in
  (∀ d p, window.format_window_boundary t
            (mkWindowBoundary (Literal (PyInt 0) d) p) = Ok "CURRENT ROW")
  ∧ (∀ d v, window.translate t (Literal (PyInt 5) d) = Ok v →
       window.format_window_boundary t
         (mkWindowBoundary (Literal (PyInt 5) d) true)
       = Ok (v +:+ " PRECEDING"))
  ∧ (start frame = None → end_ frame = None → fmt = Ok (spec.over_text keys))
  ∧ (forbidden = true → fmt = Ok (spec.over_text keys))
  ∧ (forbidden = false → ∀ b e,
       start frame = None → end_ frame = Some b →
       window.format_window_boundary t b = Ok e →
       fmt = Ok (spec.over_text
                   (keys ++ [spec.between_text frame "UNBOUNDED PRECEDING" e])))
  ∧ (forbidden = false → ∀ b s,
       start frame = Some b → end_ frame = None →
       window.format_window_boundary t b = Ok s →
       fmt = Ok (spec.over_text
                   (keys ++ [spec.between_text frame s "UNBOUNDED FOLLOWING"])))
  ∧ (forbidden = false → ∀ b1 b2 s e,
       start frame = Some b1 → end_ frame = Some b2 →
       window.format_window_boundary t b1 = Ok s →
       window.format_window_boundary t b2 = Ok e →
       fmt = Ok (spec.over_text (keys ++ [spec.between_text frame s e]))).
Proof.
  intros Hps Hos fmt keys forbidden. subst fmt keys forbidden.
  rewrite (format_window_frame_keys t func frame ps os Hps Hos).
  repeat split.
  - intros d v Hv.
    apply (nonzero_boundary_has_direction t 5 d true v); [lia|exact Hv].
  - intros -> ->. reflexivity.
  - intros ->. destruct (start frame), (end_ frame); reflexivity.
  - intros -> b e -> -> He. cbn. rewrite He. reflexivity.
  - intros -> b s -> -> Hs. cbn. rewrite Hs. reflexivity.
  - intros -> b1 b2 s e -> -> Hs He. cbn. rewrite Hs. cbn. rewrite He.
    reflexivity.
Qed.

Lemma C5_five_preceding_to_current_row :
  window.format_window_frame demo.string_translator
    (Reduction Sum demo.x None dt.Int64)
    (demo.rows [demo.x] [demo.asc demo.ts]
       (Some (demo.preceding (demo.int_literal 5)))
       (Some (demo.following (demo.int_literal 0))))
  = Ok "OVER (PARTITION BY `x` ORDER BY `ts` ROWS BETWEEN 5 PRECEDING AND CURRENT ROW)".
Proof.
  refine (proj2 (proj2 (proj2 (proj2 (proj2 (proj2
            (C5_frame_formatting demo.string_translator _ _ ["`x`"] ["`ts`"]
               _ _)))))) _ _ _ "5 PRECEDING" "CURRENT ROW" _ _ _ _);
    reflexivity.
Defined.

(** The claim as stated fails: with both boundaries absent, the absent start
    is not rendered "UNBOUNDED PRECEDING" (nor the end "UNBOUNDED FOLLOWING"),
    although the function allows a frame clause. *)
Lemma C5_absent_boundaries_not_rendered :
  let func := Reduction Sum demo.x None dt.Int64 in
  let frame := demo.rows [demo.x] [demo.asc demo.ts] None None in
  start frame = None
  ∧ window._forbids_frame_clause demo.string_translator (ops.type func) = false
  ∧ window.format_window_frame demo.string_translator func frame
    = Ok "OVER (PARTITION BY `x` ORDER BY `ts`)".
Proof. repeat split. Qed.

(** ** Arity helpers ([alchemy/registry.py]) *)

Section arity.

Variable sa_func : list sa.expr → res sa.expr.
Variable t : alchemy.translator.

Lemma coerced_argument (a : ops.argument) (f : sa.expr) :
  alchemy.translate t a = Ok f →
  (arg ← alchemy.translate t a;
   alchemy.suppress_AttributeError (sa.scalar_subquery arg) arg)
  = Ok (spec.coerced f).
Proof. intros ->. destruct f; reflexivity. Qed.

Lemma failed_argument (a : ops.argument) (e : com.exn) :
  alchemy.translate t a = Raise e →
  (arg ← alchemy.translate t a;
   alchemy.suppress_AttributeError (sa.scalar_subquery arg) arg)
  = Raise e.
Proof. intros ->. reflexivity. Qed.

Lemma varargs_call_translated (args : list ops.argument) (frags : list sa.expr) :
  Forall2 (λ a f, alchemy.translate t a = Ok f) args frags →
  alchemy._varargs_call sa_func t args = sa_func (spec.coerced <$> frags).
Proof.
  intros H. unfold alchemy._varargs_call.
  rewrite (mapM_Ok _ args (spec.coerced <$> frags)); [reflexivity|].
  apply Forall2_fmap_r. eapply Forall2_impl; [exact H|].
  intros a f Ha. cbn beta. apply coerced_argument, Ha.
Qed.

Lemma varargs_call_failed (l1 l2 : list ops.argument) (a : ops.argument)
    (e : com.exn) :
  Forall (λ x, is_Ok (alchemy.translate t x) = true) l1 →
  alchemy.translate t a = Raise e →
  alchemy._varargs_call sa_func t (l1 ++ a :: l2) = Raise e.
Proof.
  intros Hl Ha. unfold alchemy._varargs_call.
  rewrite (mapM_Raise _ l1 l2 a e); [reflexivity| |apply failed_argument, Ha].
  eapply Forall_impl; [exact Hl|]. intros x Hx. cbn beta.
  apply is_Ok_true in Hx as [f Hf]. rewrite (coerced_argument x f Hf).
  reflexivity.
Qed.

End arity.

(** C6.  The rule [fixed_arity fn n] raises the arity error, which reports
    [n] and the number of arguments of the node, when the two differ.  When
    they agree, the arguments are translated from left to right: if all
    translate, [fn] is called on the fragments in order, a fragment that is
    a query being put in its scalar-subquery form; the first argument that
    fails to translate decides the error.  So, for arguments that translate
    and a function that accepts [n] fragments, the rule raises the arity
    error if and only if the count differs from [n]. *)
Theorem C6_fixed_arity
    (sa_func : list sa.expr → res sa.expr) (n : nat)
    (t : alchemy.translator) (op : node) :
  let count := length (ops.args op) in
  let arity_error :=
    com.IbisError ("Incorrect number of args. Expected: " +:+ pretty n
                     +:+ ". Current: " +:+ pretty count) in
  let result := alchemy.fixed_arity sa_func n t op in
  (count ≠ n → result = Raise arity_error)
  ∧ (count = n → ∀ frags,
       Forall2 (λ a f, alchemy.translate t a = Ok f) (ops.args op) frags →
       result = sa_func (spec.coerced <$> frags))
  ∧ (count = n → ∀ l1 a l2 e,
       ops.args op = l1 ++ a :: l2 →
       Forall (λ x, is_Ok (alchemy.translate t x) = true) l1 →
       alchemy.translate t a = Raise e →
       result = Raise e)
  ∧ (Forall (λ a, is_Ok (alchemy.translate t a) = true) (ops.args op) →
     (∀ l, length l = n → is_Ok (sa_func l) = true) →
     (result = Raise arity_error ↔ count ≠ n)).
Proof.
  intros count arity_error result.
  assert (Hne : count ≠ n → result = Raise arity_error).
  { intros H. subst result. unfold alchemy.fixed_arity.
    case_decide; [reflexivity|]. subst count. lia. }
  assert (Heq : count = n → result = alchemy._varargs_call sa_func t (ops.args op)).
  { intros H. subst result. unfold alchemy.fixed_arity.
    case_decide; [|reflexivity]. subst count. lia. }
  split; [exact Hne|]. split; [|split].
  - intros H frags Hf. rewrite (Heq H). apply varargs_call_translated, Hf.
  - intros H l1 a l2 e Hargs Hl1 Ha. rewrite (Heq H), Hargs.
    apply varargs_call_failed; assumption.
  - intros Hall Hfn. split; [|exact Hne].
    intros Hr Hc. rewrite (Heq Hc) in Hr.
    assert (∃ frags, Forall2 (λ a f, alchemy.translate t a = Ok f)
                       (ops.args op) frags) as [frags Hf].
    { clear -Hall. induction Hall as [|a l Ha _ [k Hk]]; [by exists []|].
      apply is_Ok_true in Ha as [f Hf]. exists (f :: k). by constructor. }
    rewrite (varargs_call_translated sa_func t _ frags Hf) in Hr.
    specialize (Hfn (spec.coerced <$> frags)).
    rewrite Hr in Hfn. cbn in Hfn.
    assert (false = true); [|discriminate]. apply Hfn.
    rewrite length_fmap. apply Forall2_length in Hf. subst count. lia.
Qed.

(** A comparison has two arguments: a rule of arity 3 refuses it, and the
    rule of arity 2 calls the operator on the two fragments. *)
Lemma C6_comparison :
  let op := demo.Greater demo.x (demo.int_literal 0) in
  alchemy.fixed_arity (alchemy.call2 (sa.binary ">")) 3
    (demo.translator false false) op
  = Raise (com.IbisError "Incorrect number of args. Expected: 3. Current: 2")
  ∧ alchemy.fixed_arity (alchemy.call2 (sa.binary ">")) 2
      (demo.translator false false) op
    = Ok (sa.binary ">" (sa.column "x") (sa.literal (PyInt 0))).
Proof.
  intros op. split.
  - refine (proj1 (C6_fixed_arity (alchemy.call2 (sa.binary ">")) 3
                     (demo.translator false false) op) _).
    cbn. lia.
  - refine (proj1 (proj2 (C6_fixed_arity (alchemy.call2 (sa.binary ">")) 2
                            (demo.translator false false) op)) _
              [sa.column "x"; sa.literal (PyInt 0)] _); [reflexivity|].
    repeat constructor.
Defined.

(** ** Count and cast ([alchemy/registry.py]) *)

(** C8.  A count-star without a predicate is the bare count.  With a
    predicate, a dialect with the FILTER syntax gets the bare count filtered
    by the translated predicate; a dialect without it gets the count of the
    translation of [Where(pred, 1, None)], which under the registry's rules
    for [Where] and for literals is the count of
    [CASE WHEN pred THEN 1 ELSE NULL END]. *)
Theorem C8_count_star
    (t : alchemy.translator) (table : string) (where_ : node) (pred : sa.expr) :
  alchemy.translate t where_ = Ok pred →
  let filtered := alchemy._count_star t (CountStar table (Some where_)) in
  let conditional := alchemy.Where_1_None where_ in
  alchemy._count_star t (CountStar table None) = Ok (sa.func "count" [])
  ∧ (alchemy._has_reduction_filter_syntax t = true →
     filtered = Ok (sa.filter (sa.func "count" []) pred))
  ∧ (alchemy._has_reduction_filter_syntax t = false →
     filtered = (c ← alchemy.translate t conditional; Ok (sa.func "count" [c])))
  ∧ (alchemy._has_reduction_filter_syntax t = false →
     alchemy.translate t conditional = alchemy._where t conditional →
     alchemy.translate t (Literal (PyInt 1) dt.int8)
       = alchemy._literal t (Literal (PyInt 1) dt.int8) →
     alchemy.translate t (Literal PyNone dt.Null)
       = alchemy._literal t (Literal PyNone dt.Null) →
     filtered
     = Ok (sa.func "count"
             [sa.case [(spec.coerced pred, sa.literal (PyInt 1))] sa.null])).
Proof.
  intros Hpred filtered conditional. subst filtered conditional.
  split; [reflexivity|]. split; [|split].
  - intros Hf. cbn. rewrite Hf, Hpred. reflexivity.
  - intros Hf. cbn. rewrite Hf. reflexivity.
  - intros Hf Hwhere Hone Hnone. cbn. rewrite Hf, Hwhere.
    unfold alchemy._where, alchemy.fixed_arity.
    case_decide as Hcount; [exfalso; apply Hcount; reflexivity|].
    rewrite (varargs_call_translated _ t _ [pred; sa.literal (PyInt 1); sa.null]).
    + reflexivity.
    + repeat constructor; [exact Hpred|rewrite Hone|rewrite Hnone]; reflexivity.
Qed.

Lemma C8_count_star_where_positive :
  alchemy._count_star (demo.translator true false)
    (CountStar "t" (Some (demo.Greater demo.x (demo.int_literal 0))))
  = Ok (sa.filter (sa.func "count" [])
          (sa.binary ">" (sa.column "x") (sa.literal (PyInt 0))))
  ∧ alchemy._count_star (demo.translator false false)
      (CountStar "t" (Some (demo.Greater demo.x (demo.int_literal 0))))
    = Ok (sa.func "count"
            [sa.case [(sa.binary ">" (sa.column "x") (sa.literal (PyInt 0)),
                       sa.literal (PyInt 1))] sa.null]).
Proof.
  split.
  - refine (proj1 (proj2 (C8_count_star (demo.translator true false) "t"
                            (demo.Greater demo.x (demo.int_literal 0))
                            (sa.binary ">" (sa.column "x") (sa.literal (PyInt 0)))
                            _)) _); reflexivity.
  - refine (proj2 (proj2 (proj2 (C8_count_star (demo.translator false false) "t"
                            (demo.Greater demo.x (demo.int_literal 0))
                            (sa.binary ">" (sa.column "x") (sa.literal (PyInt 0)))
                            _))) _ _ _ _).
    + reflexivity.
    + reflexivity.
    + through (sa.case [(sa.binary ">" (sa.column "x") (sa.literal (PyInt 0)),
                         sa.literal (PyInt 1))] sa.null).
    + through (sa.literal (PyInt 1)).
    + through sa.null.
Defined.

(** C9.  A cast first translates its argument.  From an integer type to
    timestamp, the result is the dialect's integer-to-timestamp helper on
    the translated argument; from binary to string, the call
    [encode(arg, 'escape')]; to binary, a cast to [LargeBinary]; to JSON on
    a dialect without a native JSON type, the translated argument itself;
    in every other case, the cast to the dialect's type for the target. *)
Theorem C9_cast
    (t : alchemy.translator) (arg : node) (typ : dt.t) (sa_arg : sa.expr) :
  alchemy.translate t arg = Ok sa_arg →
  let result := alchemy._cast t (Cast arg typ) in
  let arg_dtype := output_dtype arg in
  (dt.is_integer arg_dtype = true → dt.is_timestamp typ = true →
   result = Ok (alchemy.integer_to_timestamp t sa_arg))
  ∧ (dt.is_binary arg_dtype = true → dt.is_string typ = true →
     result = Ok (sa.func "encode" [sa_arg; sa.literal (PyStr "escape")]))
  ∧ (dt.is_binary typ = true → result = Ok (sa.cast sa_arg sa.LargeBinary))
  ∧ (dt.is_json typ = true → alchemy.native_json_type t = false →
     result = Ok sa_arg)
  ∧ (dt.is_integer arg_dtype && dt.is_timestamp typ = false →
     dt.is_binary arg_dtype && dt.is_string typ = false →
     dt.is_binary typ = false →
     dt.is_json typ && negb (alchemy.native_json_type t) = false →
     result = Ok (sa.cast sa_arg (alchemy.get_sqla_type t typ))).
Proof.
  intros Harg result arg_dtype. subst result arg_dtype.
  unfold alchemy._cast. rewrite Harg, bind_Ok.
  repeat split.
  - intros -> ->. reflexivity.
  - intros Hb ->. rewrite Hb.
    destruct (output_dtype arg); try discriminate. reflexivity.
  - intros Hb. rewrite Hb.
    destruct typ; try discriminate. rewrite !andb_false_r. reflexivity.
  - intros Hj ->. rewrite Hj.
    destruct typ; try discriminate. rewrite !andb_false_r. reflexivity.
  - intros -> -> -> ->. reflexivity.
Qed.

Lemma C9_integer_literal_to_timestamp :
  alchemy._cast (demo.translator true false)
    (Cast (demo.int_literal 1000) dt.Timestamp)
  = Ok (demo.integer_to_timestamp (sa.literal (PyInt 1000))).
Proof.
  refine (proj1 (C9_cast (demo.translator true false) (demo.int_literal 1000)
                   dt.Timestamp (sa.literal (PyInt 1000)) _) _ _);
    reflexivity.
Defined.


(** ** The window rules ([window.py] and [alchemy/registry.py]) *)

Section window_rules.

Variable windowize_function : node → WindowFrame → res node.
Variable RankBase : ops.cls → bool.
Variable class_repr : ops.cls → string.
Variable get_name : node → string.
Variable ts : window.translator.
Variable ta : alchemy.translator.

Let window := window.window windowize_function RankBase class_repr ts.
Let _window_function :=
  alchemy._window_function windowize_function get_name class_repr ta.

(** What the string rule returns for a function that is neither rejected
    nor cumulative: the translated function, the OVER clause of some frame,
    and the subtraction for the classes of [RankBase] only. *)
Lemma window_shape (func : node) (frame : WindowFrame) (s : string) :
  ops.is_CumulativeOp func = false →
  window (WindowFunction func frame) = Ok s →
  ∃ call over frame',
    window.translate ts func = Ok call
    ∧ window.format_window_frame ts func frame' = Ok over
    ∧ s = if RankBase (ops.type func)
          then "(" +:+ (call +:+ " " +:+ over) +:+ " - 1)"
          else call +:+ " " +:+ over.
Proof.
  intros Hcum. subst window. unfold window.window. rewrite Hcum.
  destruct (window._unsupported_reductions (ops.type func)); [discriminate|].
  intros H.
  apply bind_Ok_inv in H as (f1 & _ & H).
  apply bind_Ok_inv in H as (f2 & _ & H).
  apply bind_Ok_inv in H as (over & Hover & H).
  apply bind_Ok_inv in H as (call & Hcall & H).
  exists call, over, f2. repeat split; [exact Hcall|exact Hover|].
  destruct (RankBase (ops.type func)); congruence.
Qed.

Lemma window_returns (func : node) (frame : WindowFrame) (call over : string) :
  window._unsupported_reductions (ops.type func) = false →
  ops.is_CumulativeOp func = false →
  window.nonempty (order_by frame) = true →
  frame_type frame = RowsWindowFrame → max_lookback frame = None →
  window.format_window_frame ts func frame = Ok over →
  window.translate ts func = Ok call →
  window (WindowFunction func frame)
  = Ok (if RankBase (ops.type func)
        then "(" +:+ (call +:+ " " +:+ over) +:+ " - 1)"
        else call +:+ " " +:+ over).
Proof.
  intros Hu Hc Ho Hrows Hl Hover Hcall. subst window. unfold window.window.
  rewrite Hu, Hc, Ho. cbn [negb]. rewrite andb_false_r, bind_Ok.
  rewrite Hrows, Hl, bind_Ok, Hover, bind_Ok, Hcall, bind_Ok.
  destruct (RankBase (ops.type func)); reflexivity.
Qed.

(** The same for the SQLAlchemy rule; the subtraction is for row-number,
    dense-rank, min-rank and ntile only. *)
Lemma window_function_shape (func : node) (frame : WindowFrame) (e : sa.expr) :
  ops.is_CumulativeOp func = false →
  _window_function (WindowFunction func frame) = Ok e →
  ∃ call partition_by order_by frame_clause,
    alchemy.translate ta func = Ok call
    ∧ e = let result := sa.over call partition_by order_by frame_clause in
          if alchemy.is_zero_based_rank (ops.type func)
          then sa.sub result 1 else result.
Proof.
  intros Hcum. subst _window_function. unfold alchemy._window_function.
  rewrite Hcum. intros H.
  apply bind_Ok_inv in H as (call & Hcall & H).
  apply bind_Ok_inv in H as (o & _ & H).
  apply bind_Ok_inv in H as (p & _ & H).
  apply bind_Ok_inv in H as (how & _ & H).
  apply bind_Ok_inv in H as (f & _ & H).
  exists call, p, o, f. split; [exact Hcall|].
  cbn zeta. destruct (alchemy.is_zero_based_rank (ops.type func)); congruence.
Qed.

Lemma window_function_returns (func : node) (frame : WindowFrame)
    (call : sa.expr) (ps os : list sa.expr) :
  ops.is_CumulativeOp func = false →
  alchemy.translate ta func = Ok call →
  window.nonempty (order_by frame) = true →
  mapM (λ k, alchemy.translate ta (SortKey k)) (order_by frame) = Ok os →
  mapM (λ x : node, alchemy.translate ta x) (group_by frame) = Ok ps →
  frame_type frame = RowsWindowFrame → max_lookback frame = None →
  alchemy._forbids_frame_clause ta (ops.type func) = true →
  _window_function (WindowFunction func frame)
  = Ok (let result := sa.over call ps (inr os) None in
        if alchemy.is_zero_based_rank (ops.type func)
        then sa.sub result 1 else result).
Proof.
  intros Hc Hcall Ho Hos Hps Hrows Hl Hf. subst _window_function.
  unfold alchemy._window_function.
  rewrite Hc, Hcall, bind_Ok, Ho. cbn [negb]. rewrite andb_false_r.
  rewrite Hos, !bind_Ok, Hps, bind_Ok, Hrows, Hl, bind_Ok, Hf, bind_Ok.
  destruct (alchemy.is_zero_based_rank (ops.type func)); reflexivity.
Qed.

(** The SQLAlchemy rule translates the function before anything else. *)
Lemma window_function_translates_first (func : node) (frame : WindowFrame)
    (e : com.exn) :
  ops.is_CumulativeOp func = false →
  alchemy.translate ta func = Raise e →
  _window_function (WindowFunction func frame) = Raise e.
Proof.
  intros Hc He. subst _window_function. unfold alchemy._window_function.
  rewrite Hc, He. reflexivity.
Qed.

End window_rules.

(** C1, as amended.  [ops.RankBase] is declared outside these files; it is
    taken to hold the rank family of the specification: row-number,
    dense-rank, min-rank, percent-rank, cumulative-distribution and ntile.
    In the string rule, every windowed rank-family function is rendered
    "(call over - 1)", where [call] is the translated function and [over]
    the OVER clause.  In the SQLAlchemy rule, the windowed call has 1
    subtracted for row-number, dense-rank, min-rank and ntile; for
    percent-rank and cumulative-distribution it is the windowed call
    itself, with nothing subtracted. *)
Theorem C1_rank_minus_one
    (windowize_function : node → WindowFrame → res node)
    (RankBase : ops.cls → bool) (class_repr : ops.cls → string)
    (get_name : node → string)
    (ts : window.translator) (ta : alchemy.translator)
    (a : analytic_cls) (args : list node) (d : dt.t) (frame : WindowFrame) :
  (∀ a', RankBase (cAnalytic a') = spec.rank_family a') →
  spec.rank_family a = true →
  let func := Analytic a args d in
  let op := WindowFunction func frame in
  let window := window.window windowize_function RankBase class_repr ts in
  let _window_function :=
    alchemy._window_function windowize_function get_name class_repr ta in
  ((∀ s, window op = Ok s →
      ∃ call over frame',
        window.translate ts func = Ok call
        ∧ window.format_window_frame ts func frame' = Ok over
        ∧ s = "(" +:+ (call +:+ " " +:+ over) +:+ " - 1)")
   ∧ (∀ call over,
        window.nonempty (order_by frame) = true →
        frame_type frame = RowsWindowFrame → max_lookback frame = None →
        window.format_window_frame ts func frame = Ok over →
        window.translate ts func = Ok call →
        window op = Ok ("(" +:+ (call +:+ " " +:+ over) +:+ " - 1)")))
  ∧ (a = RowNumber ∨ a = DenseRank ∨ a = MinRank ∨ a = NTile →
     (∀ e, _window_function op = Ok e →
        ∃ call partition_by order_by frame_clause,
          alchemy.translate ta func = Ok call
          ∧ e = sa.sub (sa.over call partition_by order_by frame_clause) 1)
     ∧ (∀ call ps os,
          alchemy.translate ta func = Ok call →
          window.nonempty (order_by frame) = true →
          mapM (λ k, alchemy.translate ta (SortKey k)) (order_by frame) = Ok os →
          mapM (λ x : node, alchemy.translate ta x) (group_by frame) = Ok ps →
          frame_type frame = RowsWindowFrame → max_lookback frame = None →
          alchemy._forbids_frame_clause ta (cAnalytic a) = true →
          _window_function op = Ok (sa.sub (sa.over call ps (inr os) None) 1)))
  ∧ (a = PercentRank ∨ a = CumeDist →
     (∀ e, _window_function op = Ok e →
        ∃ call partition_by order_by frame_clause,
          alchemy.translate ta func = Ok call
          ∧ e = sa.over call partition_by order_by frame_clause)
     ∧ (∀ call ps os,
          alchemy.translate ta func = Ok call →
          window.nonempty (order_by frame) = true →
          mapM (λ k, alchemy.translate ta (SortKey k)) (order_by frame) = Ok os →
          mapM (λ x : node, alchemy.translate ta x) (group_by frame) = Ok ps →
          frame_type frame = RowsWindowFrame → max_lookback frame = None →
          alchemy._forbids_frame_clause ta (cAnalytic a) = true →
          _window_function op = Ok (sa.over call ps (inr os) None))).
Proof.
  intros HRank Ha func op window _window_function.
  assert (HR : RankBase (ops.type func) = true).
  { cbn [ops.type func]. rewrite HRank. exact Ha. }
  split; [|split].
  - split.
    + intros s Hs.
      destruct (window_shape windowize_function RankBase class_repr ts
                  func frame s eq_refl Hs)
        as (call & over & frame' & Hcall & Hover & ->).
      exists call, over, frame'. rewrite HR. auto.
    + intros call over Ho Hrows Hl Hover Hcall.
      subst window op.
      rewrite (window_returns windowize_function RankBase class_repr ts
                 func frame call over eq_refl eq_refl Ho Hrows Hl Hover Hcall).
      rewrite HR. reflexivity.
  - intros Hz'.
    assert (Hz : alchemy.is_zero_based_rank (ops.type func) = true).
    { destruct Hz' as [->|[->|[->| ->]]]; reflexivity. }
    split.
    + intros e He.
      destruct (window_function_shape windowize_function class_repr get_name
                  ta func frame e eq_refl He) as (call & p & o & f & Hcall & ->).
      exists call, p, o, f. rewrite Hz. auto.
    + intros call ps os Hcall Ho Hos Hps Hrows Hl Hf. subst _window_function op.
      rewrite (window_function_returns windowize_function class_repr get_name
                 ta func frame call ps os eq_refl Hcall Ho Hos Hps Hrows Hl Hf).
      rewrite Hz. reflexivity.
  - intros Hz'.
    assert (Hz : alchemy.is_zero_based_rank (ops.type func) = false).
    { destruct Hz' as [->| ->]; reflexivity. }
    split.
    + intros e He.
      destruct (window_function_shape windowize_function class_repr get_name
                  ta func frame e eq_refl He) as (call & p & o & f & Hcall & ->).
      exists call, p, o, f. rewrite Hz. auto.
    + intros call ps os Hcall Ho Hos Hps Hrows Hl Hf. subst _window_function op.
      rewrite (window_function_returns windowize_function class_repr get_name
                 ta func frame call ps os eq_refl Hcall Ho Hos Hps Hrows Hl Hf).
      rewrite Hz. reflexivity.
Qed.

(** Row numbers, in both rules. *)
Lemma C1_row_number :
  let op := WindowFunction (Analytic RowNumber [] dt.Int64)
              (demo.rows [demo.x] [demo.asc demo.ts] None None) in
  window.window demo.windowize_function demo.RankBase demo.class_repr
    demo.string_translator op
  = Ok "(row_number() OVER (PARTITION BY `x` ORDER BY `ts`) - 1)"
  ∧ alchemy._window_function demo.windowize_function demo.get_name
      demo.class_repr (demo.translator true false) op
    = Ok (sa.sub (sa.over (sa.func "row_number" []) [sa.column "x"]
                    (inr [sa.asc (sa.column "ts")]) None) 1).
Proof.
  intros op.
  assert (HRank : ∀ a', demo.RankBase (cAnalytic a') = spec.rank_family a')
    by (intros []; reflexivity).
  split.
  - refine (proj2 (proj1 (C1_rank_minus_one demo.windowize_function
                            demo.RankBase demo.class_repr demo.get_name
                            demo.string_translator (demo.translator true false)
                            RowNumber [] dt.Int64
                            (demo.rows [demo.x] [demo.asc demo.ts] None None)
                            HRank eq_refl))
              "row_number()" "OVER (PARTITION BY `x` ORDER BY `ts`)" _ _ _ _ _);
      reflexivity.
  - refine (proj2 (proj1 (proj2 (C1_rank_minus_one demo.windowize_function
                            demo.RankBase demo.class_repr demo.get_name
                            demo.string_translator (demo.translator true false)
                            RowNumber [] dt.Int64
                            (demo.rows [demo.x] [demo.asc demo.ts] None None)
                            HRank eq_refl))
                     _)
              (sa.func "row_number" []) [sa.column "x"]
              [sa.asc (sa.column "ts")] _ _ _ _ _ _ _);
      first [reflexivity | left; reflexivity].
Defined.

(** The claim as stated fails: the SQLAlchemy rule returns a windowed
    percent-rank as it is, with nothing subtracted. *)
Lemma C1_percent_rank_not_shifted :
  alchemy._window_function demo.windowize_function demo.get_name
    demo.class_repr (demo.translator true false)
    (WindowFunction (Analytic PercentRank [demo.x] dt.Float64)
       (demo.rows [] [demo.asc demo.ts] None None))
  = Ok (sa.over (sa.func "percent_rank" []) []
          (inr [sa.asc (sa.column "ts")]) None).
Proof. reflexivity. Qed.




(** A cumulative sum and the sum over the frame that ends at the current
    row have the same translation, in both rules. *)
Lemma cumulative_sum_both_rules :
  let F := demo.rows [demo.x] [demo.asc demo.ts] None None in
  let F' := demo.rows [demo.x] [demo.asc demo.ts] None
              (Some (demo.following (demo.int_literal 0))) in
  let cumulative := WindowFunction (CumulativeOp CumulativeSum demo.x dt.Int64) F in
  let plain := WindowFunction (Reduction Sum demo.x None dt.Int64) F' in
  window.translate demo.string_translator cumulative
  = Ok "Sum(`x`) OVER (PARTITION BY `x` ORDER BY `ts` ROWS BETWEEN UNBOUNDED PRECEDING AND CURRENT ROW)"
  ∧ window.translate demo.string_translator plain
    = window.translate demo.string_translator cumulative
  ∧ alchemy.translate (demo.translator true false) cumulative
    = Ok (sa.over (sa.func "sum" [sa.column "x"]) [sa.column "x"]
            (inr [sa.asc (sa.column "ts")])
            (Some ("rows", (None, Some (PyInt 0)))))
  ∧ alchemy.translate (demo.translator true false) plain
    = alchemy.translate (demo.translator true false) cumulative.
Proof.
  intros F F' cumulative plain.
  assert (Hs : window.translate demo.string_translator cumulative
               = Ok "Sum(`x`) OVER (PARTITION BY `x` ORDER BY `ts` ROWS BETWEEN UNBOUNDED PRECEDING AND CURRENT ROW)")
    by reflexivity.
  assert (Ha : alchemy.translate (demo.translator true false) cumulative
               = Ok (sa.over (sa.func "sum" [sa.column "x"]) [sa.column "x"]
                       (inr [sa.asc (sa.column "ts")])
                       (Some ("rows", (None, Some (PyInt 0))))))
    by reflexivity.
  split; [exact Hs|]. split; [rewrite Hs; reflexivity|].
  split; [exact Ha|]. rewrite Ha. reflexivity.
Qed.

Section windowed_call.

Variable windowize_function : node → WindowFrame → res node.
Variable class_repr : ops.cls → string.
Variable get_name : node → string.
Variable ta : alchemy.translator.

(** When the SQLAlchemy rule returns, for a function that is not
    cumulative: the function, the order and the partition keys translate,
    the frame is not a rows frame with max lookback, and the boundaries
    translate. *)
Lemma window_function_over (func : node) (frame : WindowFrame)
    (call : sa.expr) (ob : sa.expr + list sa.expr) (ps : list sa.expr)
    (s e : option pyval) :
  ops.is_CumulativeOp func = false →
  alchemy.translate ta func = Ok call →
  (if alchemy._require_order_by ta (ops.type func)
        && negb (window.nonempty (order_by frame))
   then a ← window.arg_of func; r ← alchemy.translate ta (ANode a); Ok (inl r)
   else l ← mapM (λ k, alchemy.translate ta (SortKey k)) (order_by frame);
        Ok (inr l)) = Ok ob →
  mapM (λ x : node, alchemy.translate ta x) (group_by frame) = Ok ps →
  (frame_type frame = RowsWindowFrame → max_lookback frame = None) →
  alchemy._translate_window_boundary (start frame) = Ok s →
  alchemy._translate_window_boundary (end_ frame) = Ok e →
  alchemy._window_function windowize_function get_name class_repr ta
    (WindowFunction func frame)
  = Ok (let how := match frame_type frame with
                   | RowsWindowFrame => "rows"
                   | RangeWindowFrame => "range_"
                   end in
        let result :=
          sa.over call ps ob
            (if alchemy._forbids_frame_clause ta (ops.type func) then None
             else Some (how, (s, e))) in
        if alchemy.is_zero_based_rank (ops.type func)
        then sa.sub result 1 else result).
Proof.
  intros Hc Hcall Hob Hps Hl Hs He. unfold alchemy._window_function.
  rewrite Hc, Hcall, bind_Ok, Hob, bind_Ok, Hps, bind_Ok.
  assert (Hhow : match frame_type frame with
                 | RowsWindowFrame =>
                     match max_lookback frame with
                     | Some _ =>
                         Raise (com.NotImplementedError
                           "Rows with max lookback is not implemented for SQLAlchemy-based backends.")
                     | None => Ok "rows"
                     end
                 | RangeWindowFrame => Ok "range_"
                 end
                 = Ok match frame_type frame with
                      | RowsWindowFrame => "rows"
                      | RangeWindowFrame => "range_"
                      end).
  { destruct (frame_type frame); [rewrite (Hl eq_refl)|]; reflexivity. }
  rewrite Hhow, bind_Ok, Hs, He. cbn zeta.
  destruct (alchemy._forbids_frame_clause ta (ops.type func)),
           (alchemy.is_zero_based_rank (ops.type func)); reflexivity.
Qed.

End windowed_call.

(** C7, as amended.  The string rule refuses a window over an
    approximate-median, group-concat or approximate-distinct-count
    reduction with the unsupported-operation error that names the class,
    whatever the translator and the frame are, so no fragment is produced.
    The SQLAlchemy rule does not reject these classes.  It translates the
    reduction first and fails as that translation fails.  It returns the
    windowed call of the translated reduction when also the order keys
    (or, for a reduction the dialect requires an order for, over a frame
    without order keys, the argument of the reduction) and the partition
    keys translate, the frame is not a rows frame with max lookback, and
    both boundaries translate.  And whatever it returns is the windowed call
    of the translated reduction. *)
Theorem C7_reductions_refused_in_windows
    (windowize_function : node → WindowFrame → res node)
    (RankBase : ops.cls → bool) (class_repr : ops.cls → string)
    (get_name : node → string)
    (ts : window.translator) (ta : alchemy.translator)
    (r : reduction_cls) (arg : node) (where_ : option node) (d : dt.t)
    (frame : WindowFrame) :
  spec.rejected_in_window r = true →
  let func := Reduction r arg where_ d in
  let _window_function :=
    alchemy._window_function windowize_function get_name class_repr ta in
  let by_argument :=
    alchemy._require_order_by ta (cReduction r)
    && negb (window.nonempty (order_by frame)) in
  let frame_clause s e :=
    if alchemy._forbids_frame_clause ta (cReduction r) then None
    else Some (match frame_type frame with
               | RowsWindowFrame => "rows"
               | RangeWindowFrame => "range_"
               end, (s, e)) in
  window.window windowize_function RankBase class_repr ts
    (WindowFunction func frame)
  = Raise (com.UnsupportedOperationError
             (class_repr (cReduction r)
                +:+ " is not supported in window functions"))
  ∧ (∀ e, alchemy.translate ta func = Raise e →
       _window_function (WindowFunction func frame) = Raise e)
  ∧ (∀ call os ps s e,
       alchemy.translate ta func = Ok call →
       by_argument = false →
       mapM (λ k, alchemy.translate ta (SortKey k)) (order_by frame) = Ok os →
       mapM (λ x : node, alchemy.translate ta x) (group_by frame) = Ok ps →
       (frame_type frame = RowsWindowFrame → max_lookback frame = None) →
       alchemy._translate_window_boundary (start frame) = Ok s →
       alchemy._translate_window_boundary (end_ frame) = Ok e →
       _window_function (WindowFunction func frame)
       = Ok (sa.over call ps (inr os) (frame_clause s e)))
  ∧ (∀ call o ps s e,
       alchemy.translate ta func = Ok call →
       by_argument = true →
       alchemy.translate ta arg = Ok o →
       mapM (λ x : node, alchemy.translate ta x) (group_by frame) = Ok ps →
       (frame_type frame = RowsWindowFrame → max_lookback frame = None) →
       alchemy._translate_window_boundary (start frame) = Ok s →
       alchemy._translate_window_boundary (end_ frame) = Ok e →
       _window_function (WindowFunction func frame)
       = Ok (sa.over call ps (inl o) (frame_clause s e)))
  ∧ (∀ e, _window_function (WindowFunction func frame) = Ok e →
       ∃ call partition_by order_by frame_clause,
         alchemy.translate ta func = Ok call
         ∧ e = sa.over call partition_by order_by frame_clause).
Proof.
  intros Hr func _window_function by_argument frame_clause.
  split; [|split; [|split; [|split]]].
  - destruct r; try discriminate; reflexivity.
  - intros e He.
    apply (window_function_translates_first windowize_function class_repr
             get_name ta func frame e eq_refl He).
  - intros call os ps s e Hcall Hby Hos Hps Hl Hs He.
    subst _window_function frame_clause.
    rewrite (window_function_over windowize_function class_repr get_name ta
               func frame call (inr os) ps s e eq_refl Hcall); auto.
    cbn [ops.type func]. fold by_argument. rewrite Hby, Hos. reflexivity.
  - intros call o ps s e Hcall Hby Ho Hps Hl Hs He.
    subst _window_function frame_clause.
    rewrite (window_function_over windowize_function class_repr get_name ta
               func frame call (inl o) ps s e eq_refl Hcall); auto.
    cbn [ops.type func]. fold by_argument. rewrite Hby.
    cbn [window.arg_of func]. rewrite bind_Ok, Ho. reflexivity.
  - intros e He.
    destruct (window_function_shape windowize_function class_repr get_name
                ta func frame e eq_refl He) as (call & p & o & f & Hcall & ->).
    exists call, p, o, f. auto.
Qed.

(** A window over a group-concat, in both rules. *)
Lemma C7_group_concat_refused :
  let op := WindowFunction (Reduction GroupConcat demo.s None dt.String)
              (demo.rows [] [] None None) in
  window.window demo.windowize_function demo.RankBase demo.class_repr
    demo.string_translator op
  = Raise (com.UnsupportedOperationError
             "<class 'GroupConcat'> is not supported in window functions")
  ∧ alchemy._window_function demo.windowize_function demo.get_name
      demo.class_repr (demo.translator true false) op
    = Ok (sa.over (sa.func "group_concat" [sa.column "s"]) [] (inr [])
            (Some ("rows", (None, None)))).
Proof.
  intros op.
  pose proof (C7_reductions_refused_in_windows demo.windowize_function
                demo.RankBase demo.class_repr demo.get_name
                demo.string_translator (demo.translator true false)
                GroupConcat demo.s None dt.String
                (demo.rows [] [] None None) eq_refl) as H.
  split.
  - exact (proj1 H).
  - refine (proj1 (proj2 (proj2 H))
              (sa.func "group_concat" [sa.column "s"]) [] [] None None
              _ _ _ _ _ _ _);
      first [reflexivity | vm_compute; reflexivity].
Defined.

(** The claim as stated fails: the SQLAlchemy rule translates a window over
    an approximate-distinct-count and raises nothing. *)
Lemma C7_approx_count_distinct_windowed :
  alchemy._window_function demo.windowize_function demo.get_name
    demo.class_repr (demo.translator true false)
    (WindowFunction (Reduction ApproxCountDistinct demo.s None dt.Int64)
       (demo.rows [demo.x] [] None None))
  = Ok (sa.over (sa.func "count" [sa.distinct (sa.column "s")])
          [sa.column "x"] (inr []) (Some ("rows", (None, None)))).
Proof. reflexivity. Qed.

(** * Further properties *)

(** ** The normalizer, once more *)

Lemma interval_factor_positive (u : string) (f : Z) :
  window._map_interval_to_microseconds !! u = Some f → 0 < f.
Proof.
  rewrite interval_table. unfold spec.microseconds_per.
  repeat match goal with
         | |- context [String.eqb u ?k] => destruct (String.eqb u k)
         end; intros [= <-] || discriminate; lia.
Qed.

(** What a boundary becomes: the same direction, and a value of a numeric
    type. *)
Lemma normalized_boundary_numeric (b b' : option WindowBoundary) :
  window.interval_boundary_to_integer b = Ok b' →
  option_Forall2
    (λ x y, preceding y = preceding x
            ∧ dt.is_numeric (output_dtype (value y)) = true) b b'.
Proof.
  destruct b as [[v p]|]; cbn -[window._map_interval_to_microseconds].
  - destruct (dt.is_numeric (output_dtype v)) eqn:Hnum.
    + intros [= <-]. constructor. auto.
    + intros H.
      apply bind_Ok_inv in H as (u & _ & H).
      apply bind_Ok_inv in H as (m & _ & H).
      apply bind_Ok_inv in H as (v' & Hv' & H).
      injection H as <-. constructor. split; [reflexivity|]. cbn.
      destruct v; cbn in Hv'; try (injection Hv' as <-; reflexivity).
      apply bind_Ok_inv in Hv' as (x' & _ & Hv'). injection Hv' as <-.
      reflexivity.
  - intros [= <-]. constructor.
Qed.

(** X1.  Normalizing a boundary is idempotent: a boundary that the
    normalizer returned is returned unchanged when it is normalized
    again. *)
Theorem X1_boundary_normalization_idempotent (b b' : option WindowBoundary) :
  window.interval_boundary_to_integer b = Ok b' →
  window.interval_boundary_to_integer b' = Ok b'.
Proof.
  intros H. apply normalized_boundary_numeric in H.
  destruct H as [x y [_ Hnum]|]; [|reflexivity].
  cbn -[window._map_interval_to_microseconds]. rewrite Hnum. reflexivity.
Qed.

Lemma X1_two_days_twice :
  let b := Some (demo.preceding (Literal (PyInt 172800000000) dt.int64)) in
  window.interval_boundary_to_integer b = Ok b.
Proof.
  intros b.
  refine (X1_boundary_normalization_idempotent
            (Some (demo.preceding (demo.interval 2 "D"))) b _).
  reflexivity.
Defined.

(** X2.  A frame returned by the time-range conversion is of the same
    kind, with the same partition keys and max-lookback; it has one order
    key, the cast to int64 of the one key of the input, in the same
    direction; and each boundary is absent as in the input, or has the
    direction of the input's and a value of a numeric type. *)
Theorem X2_converted_frame_is_numeric (frame frame' : WindowFrame) :
  window.time_range_to_range_window frame = Ok frame' →
  frame_type frame' = frame_type frame
  ∧ group_by frame' = group_by frame
  ∧ max_lookback frame' = max_lookback frame
  ∧ (∃ k, order_by frame = [k]
          ∧ order_by frame'
            = [mkSortKey (Cast (expr k) dt.int64) (ascending k)])
  ∧ existsb (λ c, dt.is_temporal (output_dtype (expr c))) (order_by frame')
    = false
  ∧ option_Forall2
      (λ x y, preceding y = preceding x
              ∧ dt.is_numeric (output_dtype (value y)) = true)
      (start frame) (start frame')
  ∧ option_Forall2
      (λ x y, preceding y = preceding x
              ∧ dt.is_numeric (output_dtype (value y)) = true)
      (end_ frame) (end_ frame').
Proof.
  unfold window.time_range_to_range_window. case_decide as Hlen; [discriminate|].
  destruct (order_by frame) as [|k [|k' l]] eqn:Hk;
    [discriminate| |cbn in Hlen; lia].
  intros H.
  apply bind_Ok_inv in H as (s & Hs & H).
  apply bind_Ok_inv in H as (e & He & H).
  injection H as <-. cbn.
  repeat split; eauto using normalized_boundary_numeric.
Qed.

Lemma X2_two_days_frame :
  let frame' := demo.range [] [demo.asc (Cast demo.ts dt.int64)]
                  (Some (demo.preceding (Literal (PyInt 172800000000) dt.int64)))
                  None in
  existsb (λ c, dt.is_temporal (output_dtype (expr c))) (order_by frame')
  = false.
Proof.
  intros frame'.
  refine (proj1 (proj2 (proj2 (proj2 (proj2
            (X2_converted_frame_is_numeric
               (demo.range [] [demo.asc demo.ts]
                  (Some (demo.preceding (demo.interval 2 "D"))) None)
               frame' _)))))).
  reflexivity.
Defined.

(** X3.  Normalization does not change which boundaries are the current
    row: the value of the returned boundary is a literal equal to 0 exactly
    when the value of the given one is, and then both are rendered
    "CURRENT ROW". *)
Theorem X3_current_row_preserved
    (t : window.translator) (b b' : WindowBoundary) :
  window.interval_boundary_to_integer (Some b) = Ok (Some b') →
  window.is_literal_zero (value b') = window.is_literal_zero (value b)
  ∧ (window.is_literal_zero (value b) = true →
     window.format_window_boundary t b = Ok "CURRENT ROW"
     ∧ window.format_window_boundary t b' = Ok "CURRENT ROW").
Proof.
  intros H.
  assert (Hz : window.is_literal_zero (value b')
               = window.is_literal_zero (value b)).
  { destruct b as [v p]. cbn -[window._map_interval_to_microseconds] in H.
    destruct (dt.is_numeric (output_dtype v)); [congruence|].
    apply bind_Ok_inv in H as (u & _ & H).
    apply bind_Ok_inv in H as (m & Hm & H).
    assert (0 < m) as Hpos.
    { destruct (window._map_interval_to_microseconds !! u) eqn:Hu;
        [|discriminate].
      injection Hm as <-. eapply interval_factor_positive, Hu. }
    apply bind_Ok_inv in H as (v' & Hv' & H). injection H as <-. cbn.
    destruct v; cbn in Hv'; try (injection Hv' as <-; reflexivity).
    apply bind_Ok_inv in Hv' as (x' & Hx' & Hv'). injection Hv' as <-.
    destruct value0 as [|[]|z|s]; cbn in Hx'; try discriminate;
      injection Hx' as <-; cbn; try reflexivity.
    - destruct (Z.eqb_spec (1 * m) 0); [lia|reflexivity].
    - destruct (Z.eqb_spec (z * m) 0), (Z.eqb_spec z 0); try reflexivity; nia. }
  split; [exact Hz|]. intros Hb.
  unfold window.format_window_boundary. rewrite Hz, Hb. auto.
Qed.

Lemma X3_zero_days :
  window.format_window_boundary demo.string_translator
    (demo.preceding (Literal (PyInt 0) dt.int64)) = Ok "CURRENT ROW".
Proof.
  refine (proj2 (proj2 (X3_current_row_preserved demo.string_translator
                          (demo.preceding (demo.interval 0 "D"))
                          (demo.preceding (Literal (PyInt 0) dt.int64)) _) _));
    reflexivity.
Defined.

(** X4.  The factors agree with one another: a week is seven days, a day
    24 hours, an hour 60 minutes, a minute 60 seconds, a second 1000
    milliseconds and a millisecond 1000 microseconds, so that the same
    duration given in two units is normalized to the same boundary. *)
Theorem X4_units_agree (n : Z) (p : bool) :
  let normalized unit k :=
    window.interval_boundary_to_integer
      (Some (mkWindowBoundary (Literal (PyInt k) (dt.Interval unit)) p)) in
  normalized "W" n = normalized "D" (7 * n)
  ∧ normalized "D" n = normalized "h" (24 * n)
  ∧ normalized "h" n = normalized "m" (60 * n)
  ∧ normalized "m" n = normalized "s" (60 * n)
  ∧ normalized "s" n = normalized "ms" (1000 * n)
  ∧ normalized "ms" n = normalized "us" (1000 * n).
Proof.
  intros normalized. subst normalized.
  cbn -[window._map_interval_to_microseconds Z.mul].
  rewrite !interval_table.
  cbn -[Z.mul].
  repeat split; do 5 f_equal; lia.
Qed.

(** X5.  A boundary whose value is an expression of an interval type,
    not a literal, becomes the product of the expression cast to int64 and
    the factor of its unit, in the same direction. *)
Theorem X5_expression_boundary
    (v : node) (p : bool) (u : string) (f : Z) :
  ops.is_Literal v = false → output_dtype v = dt.Interval u →
  window._map_interval_to_microseconds !! u = Some f →
  window.interval_boundary_to_integer (Some (mkWindowBoundary v p))
  = Ok (Some (mkWindowBoundary
                (Multiply (Cast v dt.int64)
                          (Literal (PyInt f) (dt.infer_integer f)) dt.int64)
                p)).
Proof.
  intros Hlit Hd Hf. apply (expression_boundary_scaled v p u f Hlit Hd).
  rewrite <- interval_table. exact Hf.
Qed.

Lemma X5_hours_column :
  window.interval_boundary_to_integer
    (Some (demo.preceding (TableColumn "t" "d" (dt.Interval "h"))))
  = Ok (Some (demo.preceding
                (Multiply (Cast (TableColumn "t" "d" (dt.Interval "h")) dt.int64)
                          (Literal (PyInt 3600000000) dt.Int64) dt.int64))).
Proof.
  refine (X5_expression_boundary (TableColumn "t" "d" (dt.Interval "h"))
            true "h" 3600000000 _ _ _); reflexivity.
Defined.

(** X6.  The time-range conversion returns a frame exactly when the frame
    has one order key and both boundaries convert; a boundary converts
    exactly when its value is of a numeric type, or of an interval type in a
    unit of the table and not the literal of [None]. *)
Theorem X6_conversion_succeeds_iff (frame : WindowFrame) (b : WindowBoundary) :
  (is_Ok (window.time_range_to_range_window frame) = true
   ↔ length (order_by frame) = 1%nat
     ∧ is_Ok (window.interval_boundary_to_integer (start frame)) = true
     ∧ is_Ok (window.interval_boundary_to_integer (end_ frame)) = true)
  ∧ (is_Ok (window.interval_boundary_to_integer (Some b)) = true
     ↔ dt.is_numeric (output_dtype (value b)) = true
       ∨ ∃ u f, output_dtype (value b) = dt.Interval u
                ∧ spec.microseconds_per u = Some f
                ∧ ∀ d, value b ≠ Literal PyNone d).
Proof.
  split.
  - unfold window.time_range_to_range_window. case_decide as Hlen.
    + split; [discriminate|]. intros [? _]. lia.
    + destruct (order_by frame) as [|k [|k' l]]; cbn in Hlen |- *;
        [split; [discriminate|intros [? _]; lia] | | lia].
      destruct (window.interval_boundary_to_integer (start frame)),
               (window.interval_boundary_to_integer (end_ frame)); cbn;
        intuition discriminate.
  - destruct b as [v p]. cbn -[window._map_interval_to_microseconds].
    destruct (dt.is_numeric (output_dtype v)) eqn:Hnum; [cbn; tauto|].
    destruct (output_dtype v) as [| | | | | | | | | | | | | | | | | | |u] eqn:Hd;
      try discriminate;
      try (cbn; split; [discriminate|intros [?|(?&?&?&_)]; discriminate]).
    cbn -[window._map_interval_to_microseconds]. rewrite interval_table.
    destruct (spec.microseconds_per u) as [f|] eqn:Hf; cbn.
    + destruct v as [[| | |] ?| | | | | | | | | | |]; cbn; split;
        try (intros _; right; exists u, f; repeat split; try congruence;
             intros d'; discriminate);
        try (intros _; reflexivity).
      * discriminate.
      * intros [?|(u' & f' & _ & _ & Hnone)]; [discriminate|].
        exfalso. eapply Hnone. reflexivity.
    + split; [discriminate|].
      intros [?|(u' & f' & [= <-] & Hf' & _)]; [discriminate|congruence].
Qed.

(** ** The window rules, once more *)

(** X7.  A windowed cumulative aggregate does not depend on the start and
    end of its frame: both rules give the same for the frame with any
    other start and end. *)
Theorem X7_cumulative_ignores_bounds
    (windowize_function : node → WindowFrame → res node)
    (RankBase : ops.cls → bool) (class_repr : ops.cls → string)
    (get_name : node → string)
    (ts : window.translator) (ta : alchemy.translator)
    (c : cumulative_cls) (arg : node) (d : dt.t) (F : WindowFrame)
    (s e : option WindowBoundary) :
  let func := CumulativeOp c arg d in
  window.window windowize_function RankBase class_repr ts
    (WindowFunction func (window.copy_start_end F s e))
  = window.window windowize_function RankBase class_repr ts
      (WindowFunction func F)
  ∧ alchemy._window_function windowize_function get_name class_repr ta
      (WindowFunction func (window.copy_start_end F s e))
    = alchemy._window_function windowize_function get_name class_repr ta
        (WindowFunction func F).
Proof. intros func. split; reflexivity. Qed.

(** X8.  The string rule on a function that requires an ORDER BY, over a
    frame without order keys, gives what it gives over the frame ordered by
    the argument of the function, ascending; and it raises as the lookup of
    the argument raises when the function has none. *)
Theorem X8_order_by_from_argument
    (windowize_function : node → WindowFrame → res node)
    (RankBase : ops.cls → bool) (class_repr : ops.cls → string)
    (ts : window.translator) (func : node) (frame : WindowFrame) :
  ops.is_CumulativeOp func = false →
  window._require_order_by ts (ops.type func) = true →
  order_by frame = [] →
  let window := window.window windowize_function RankBase class_repr ts in
  (∀ a, window.arg_of func = Ok a →
     window (WindowFunction func frame)
     = window (WindowFunction func
                 (window.copy_order_by frame [mkSortKey a true])))
  ∧ (∀ e, window._unsupported_reductions (ops.type func) = false →
       window.arg_of func = Raise e →
       window (WindowFunction func frame) = Raise e).
Proof.
  intros Hc Hr Ho window. subst window. unfold window.window.
  rewrite Hc, Hr, Ho.
  destruct (window._unsupported_reductions (ops.type func));
    (split; [intros a Ha|intros e Hu He]); try discriminate; try reflexivity.
  - rewrite Ha. cbn. rewrite ?andb_false_r. reflexivity.
  - rewrite He. reflexivity.
Qed.

Lemma X8_rank_without_order :
  window.window demo.windowize_function demo.RankBase demo.class_repr
    demo.string_translator
    (WindowFunction (Analytic MinRank [demo.x] dt.Int64)
       (demo.rows [] [] None None))
  = window.window demo.windowize_function demo.RankBase demo.class_repr
      demo.string_translator
      (WindowFunction (Analytic MinRank [demo.x] dt.Int64)
         (demo.rows [] [demo.asc demo.x] None None)).
Proof.
  refine (proj1 (X8_order_by_from_argument demo.windowize_function
                   demo.RankBase demo.class_repr demo.string_translator
                   (Analytic MinRank [demo.x] dt.Int64)
                   (demo.rows [] [] None None) _ _ _) demo.x _);
    reflexivity.
Defined.

(** X9.  Over a rows frame with a max-lookback, neither rule returns a
    fragment for a function that is not cumulative; the string rule raises
    the not-implemented error, whatever the translator does, as soon as the
    function is not a rejected reduction and the frame has its order keys
    (or needs none, or gets one from the argument of the function). *)
Theorem X9_rows_max_lookback_refused
    (windowize_function : node → WindowFrame → res node)
    (RankBase : ops.cls → bool) (class_repr : ops.cls → string)
    (get_name : node → string)
    (ts : window.translator) (ta : alchemy.translator)
    (func : node) (frame : WindowFrame) (m : node) :
  ops.is_CumulativeOp func = false →
  frame_type frame = RowsWindowFrame → max_lookback frame = Some m →
  let op := WindowFunction func frame in
  let window := window.window windowize_function RankBase class_repr ts in
  is_Ok (window op) = false
  ∧ is_Ok (alchemy._window_function windowize_function get_name class_repr
             ta op) = false
  ∧ (window._unsupported_reductions (ops.type func) = false →
     window.nonempty (order_by frame) = true
     ∨ window._require_order_by ts (ops.type func) = false
     ∨ is_Ok (window.arg_of func) = true →
     window op
     = Raise (com.NotImplementedError
         "Rows with max lookback is not implemented for SQL-based backends.")).
Proof.
  intros Hc Hrows Hm op window. subst op window.
  assert (Hs : window._unsupported_reductions (ops.type func) = false →
     window.nonempty (order_by frame) = true
     ∨ window._require_order_by ts (ops.type func) = false
     ∨ is_Ok (window.arg_of func) = true →
     window.window windowize_function RankBase class_repr ts
       (WindowFunction func frame)
     = Raise (com.NotImplementedError
         "Rows with max lookback is not implemented for SQL-based backends.")).
  { intros Hu Hcase. unfold window.window. rewrite Hu, Hc.
    destruct (window._require_order_by ts (ops.type func)
              && negb (window.nonempty (order_by frame))) eqn:Hsyn.
    - apply andb_true_iff in Hsyn as [Hr Hn]. apply negb_true_iff in Hn.
      destruct Hcase as [?|[?|Ha]]; try congruence.
      apply is_Ok_true in Ha as [a ->]. cbn. rewrite Hrows, Hm. reflexivity.
    - rewrite bind_Ok, Hrows, Hm. reflexivity. }
  split; [|split; [|exact Hs]].
  - unfold window.window. rewrite Hc.
    destruct (window._unsupported_reductions (ops.type func)); [reflexivity|].
    destruct (window._require_order_by ts (ops.type func)
              && negb (window.nonempty (order_by frame))).
    + destruct (window.arg_of func) as [a|]; [|reflexivity].
      cbn. rewrite Hrows, Hm. reflexivity.
    + rewrite bind_Ok, Hrows, Hm. reflexivity.
  - unfold alchemy._window_function. rewrite Hc, Hrows, Hm.
    destruct (alchemy.translate ta func); [|reflexivity]. rewrite bind_Ok.
    match goal with |- context [mbind _ ?o] =>
      lazymatch o with
      | (if _ then _ else _) => destruct o; [|reflexivity]
      end end.
    rewrite bind_Ok.
    destruct (mapM _ (group_by frame)); reflexivity.
Qed.

Lemma X9_sum_with_lookback :
  window.window demo.windowize_function demo.RankBase demo.class_repr
    demo.string_translator
    (WindowFunction (Reduction Sum demo.x None dt.Int64)
       (mkWindowFrame RowsWindowFrame [] [demo.asc demo.ts] None None
          (Some (demo.int_literal 3))))
  = Raise (com.NotImplementedError
      "Rows with max lookback is not implemented for SQL-based backends.").
Proof.
  refine (proj2 (proj2 (X9_rows_max_lookback_refused demo.windowize_function
                          demo.RankBase demo.class_repr demo.get_name
                          demo.string_translator (demo.translator true false)
                          (Reduction Sum demo.x None dt.Int64)
                          (mkWindowFrame RowsWindowFrame [] [demo.asc demo.ts]
                             None None (Some (demo.int_literal 3)))
                          (demo.int_literal 3) _ _ _)) _ _);
    first [reflexivity | left; reflexivity].
Defined.

(** X10.  Over a range frame, neither rule looks at the max-lookback: for
    a function that is not cumulative, the result is the same whatever the
    max-lookback of the frame is. *)
Theorem X10_range_ignores_max_lookback
    (windowize_function : node → WindowFrame → res node)
    (RankBase : ops.cls → bool) (class_repr : ops.cls → string)
    (get_name : node → string)
    (ts : window.translator) (ta : alchemy.translator)
    (func : node) (g : list node) (o : list (SortKey_ node))
    (s e : option WindowBoundary) (m m' : option node) :
  ops.is_CumulativeOp func = false →
  let frame max_lookback := mkWindowFrame RangeWindowFrame g o s e max_lookback in
  window.window windowize_function RankBase class_repr ts
    (WindowFunction func (frame m))
  = window.window windowize_function RankBase class_repr ts
      (WindowFunction func (frame m'))
  ∧ alchemy._window_function windowize_function get_name class_repr ta
      (WindowFunction func (frame m))
    = alchemy._window_function windowize_function get_name class_repr ta
        (WindowFunction func (frame m')).
Proof.
  intros Hc frame. subst frame. split.
  - unfold window.window. rewrite Hc.
    destruct (window._unsupported_reductions (ops.type func)); [reflexivity|].
    cbn [order_by].
    destruct (window._require_order_by ts (ops.type func)
              && negb (window.nonempty o)).
    + destruct (window.arg_of func) as [a|]; [|reflexivity].
      rewrite !bind_Ok. unfold window.copy_order_by.
      cbn [frame_type group_by order_by start end_ max_lookback].
      destruct (existsb _ [mkSortKey a true]); [|reflexivity].
      unfold window.time_range_to_range_window. cbn [order_by start end_].
      case_decide; [reflexivity|].
      destruct (window.interval_boundary_to_integer s) as [s'|]; [|reflexivity].
      destruct (window.interval_boundary_to_integer e) as [e'|]; reflexivity.
    + rewrite !bind_Ok. cbn [frame_type order_by].
      destruct (existsb _ o); [|reflexivity].
      unfold window.time_range_to_range_window. cbn [order_by start end_].
      case_decide; [reflexivity|].
      destruct o as [|k l]; [reflexivity|].
      destruct (window.interval_boundary_to_integer s) as [s'|]; [|reflexivity].
      destruct (window.interval_boundary_to_integer e) as [e'|]; reflexivity.
  - unfold alchemy._window_function. rewrite Hc. reflexivity.
Qed.

Lemma X10_range_with_lookback :
  let frame m := mkWindowFrame RangeWindowFrame [] [demo.asc demo.x] None
                   (Some (demo.following (demo.int_literal 2))) m in
  alchemy._window_function demo.windowize_function demo.get_name
    demo.class_repr (demo.translator true false)
    (WindowFunction (Reduction Sum demo.x None dt.Int64)
       (frame (Some (demo.int_literal 3))))
  = alchemy._window_function demo.windowize_function demo.get_name
      demo.class_repr (demo.translator true false)
      (WindowFunction (Reduction Sum demo.x None dt.Int64) (frame None)).
Proof.
  intros frame.
  refine (proj2 (X10_range_ignores_max_lookback demo.windowize_function
                   demo.RankBase demo.class_repr demo.get_name
                   demo.string_translator (demo.translator true false)
                   (Reduction Sum demo.x None dt.Int64) [] [demo.asc demo.x]
                   None (Some (demo.following (demo.int_literal 2)))
                   (Some (demo.int_literal 3)) None _)).
  reflexivity.
Defined.

(** ** Boundaries in the SQLAlchemy rule *)

(** X11.  The SQLAlchemy rule turns a boundary into a signed number: an
    absent boundary into [None]; a literal [n] preceding into [-n], which
    is what the literal [-n] following gives, whatever the types of the two
    literals are; a value that is not a literal raises the translation
    error, and nothing else does so. *)
Theorem X11_signed_boundaries (b : option WindowBoundary) (n : Z) (d d' : dt.t) :
  alchemy._translate_window_boundary None = Ok None
  ∧ alchemy._translate_window_boundary
      (Some (mkWindowBoundary (Literal (PyInt n) d) true))
    = Ok (Some (PyInt (- n)))
  ∧ alchemy._translate_window_boundary
      (Some (mkWindowBoundary (Literal (PyInt n) d) true))
    = alchemy._translate_window_boundary
        (Some (mkWindowBoundary (Literal (PyInt (- n)) d') false))
  ∧ (alchemy._translate_window_boundary b
     = Raise (com.TranslationError "Window boundaries must be literal values")
     ↔ ∃ x, b = Some x ∧ ops.is_Literal (value x) = false).
Proof.
  split; [reflexivity|split; [reflexivity|split; [reflexivity|]]].
  split.
  - destruct b as [[v p]|]; [|discriminate]. intros H.
    exists (mkWindowBoundary v p). split; [reflexivity|].
    destruct v; try reflexivity. cbn in H. destruct p; [|discriminate].
    destruct value0 as [|[]| |]; discriminate.
  - intros ([v p] & -> & Hl). destruct v; try discriminate; reflexivity.
Qed.

(** X12.  For a function that the dialect gives no frame clause, the
    SQLAlchemy rule does not look at the boundaries: the result is the same
    for any other start and end, literal or not. *)
Theorem X12_forbidden_frame_ignores_bounds
    (windowize_function : node → WindowFrame → res node)
    (class_repr : ops.cls → string) (get_name : node → string)
    (ta : alchemy.translator)
    (func : node) (frame : WindowFrame) (s e : option WindowBoundary) :
  ops.is_CumulativeOp func = false →
  alchemy._forbids_frame_clause ta (ops.type func) = true →
  alchemy._window_function windowize_function get_name class_repr ta
    (WindowFunction func (window.copy_start_end frame s e))
  = alchemy._window_function windowize_function get_name class_repr ta
      (WindowFunction func frame).
Proof.
  intros Hc Hf. unfold alchemy._window_function. rewrite Hc, Hf. reflexivity.
Qed.

Lemma X12_row_number_any_bounds :
  alchemy._window_function demo.windowize_function demo.get_name
    demo.class_repr (demo.translator true false)
    (WindowFunction (Analytic RowNumber [] dt.Int64)
       (window.copy_start_end (demo.rows [] [demo.asc demo.ts] None None)
          (Some (demo.preceding demo.x)) None))
  = alchemy._window_function demo.windowize_function demo.get_name
      demo.class_repr (demo.translator true false)
      (WindowFunction (Analytic RowNumber [] dt.Int64)
         (demo.rows [] [demo.asc demo.ts] None None)).
Proof.
  refine (X12_forbidden_frame_ignores_bounds demo.windowize_function
            demo.class_repr demo.get_name (demo.translator true false)
            (Analytic RowNumber [] dt.Int64)
            (demo.rows [] [demo.asc demo.ts] None None)
            (Some (demo.preceding demo.x)) None _ _); reflexivity.
Defined.

(** X13.  For a function that takes a frame clause, the SQLAlchemy rule
    returns no fragment when the start or the end of the frame has a value
    that is not a literal. *)
Theorem X13_expression_bound_refused
    (windowize_function : node → WindowFrame → res node)
    (class_repr : ops.cls → string) (get_name : node → string)
    (ta : alchemy.translator)
    (func : node) (frame : WindowFrame) (b : WindowBoundary) :
  ops.is_CumulativeOp func = false →
  alchemy._forbids_frame_clause ta (ops.type func) = false →
  start frame = Some b ∨ end_ frame = Some b →
  ops.is_Literal (value b) = false →
  is_Ok (alchemy._window_function windowize_function get_name class_repr ta
           (WindowFunction func frame)) = false.
Proof.
  intros Hc Hf Hb Hl. unfold alchemy._window_function. rewrite Hc, Hf.
  assert (Hraise : alchemy._translate_window_boundary (Some b)
                   = Raise (com.TranslationError
                              "Window boundaries must be literal values")).
  { destruct b as [v p]. destruct v; try discriminate; reflexivity. }
  destruct (alchemy.translate ta func); [|reflexivity]. rewrite bind_Ok.
  match goal with |- context [mbind _ ?o] =>
    lazymatch o with
    | (if _ then _ else _) => destruct o; [|reflexivity]
    end end.
  rewrite bind_Ok.
  destruct (mapM _ (group_by frame)); [|reflexivity]. rewrite bind_Ok.
  match goal with |- context [mbind _ ?o] =>
    lazymatch o with
    | (match frame_type frame with _ => _ end) => destruct o; [|reflexivity]
    end end.
  rewrite bind_Ok.
  destruct Hb as [-> | ->]; rewrite Hraise; [reflexivity|].
  destruct (alchemy._translate_window_boundary (start frame)); reflexivity.
Qed.

Lemma X13_column_bound :
  is_Ok (alchemy._window_function demo.windowize_function demo.get_name
           demo.class_repr (demo.translator true false)
           (WindowFunction (Reduction Sum demo.x None dt.Int64)
              (demo.rows [] [demo.asc demo.ts]
                 (Some (demo.preceding demo.x)) None))) = false.
Proof.
  refine (X13_expression_bound_refused demo.windowize_function
            demo.class_repr demo.get_name (demo.translator true false)
            (Reduction Sum demo.x None dt.Int64)
            (demo.rows [] [demo.asc demo.ts] (Some (demo.preceding demo.x)) None)
            (demo.preceding demo.x) _ _ _ _);
    first [reflexivity | left; reflexivity].
Defined.

(** ** Lag and lead *)

(** X14.  In the string rule for lag and lead, a default is never rendered
    without an offset: with a default and no offset, the call is the one
    with the offset 1. *)
Theorem X14_shift_default_offset
    (name : string) (t : window.translator) (a one d : node) :
  window.translate t one = Ok "1" →
  shift.shift_like name t (shift.mkShiftBase a None (Some d))
  = shift.shift_like name t (shift.mkShiftBase a (Some one) (Some d)).
Proof.
  intros H. unfold shift.shift_like. cbn. rewrite H. reflexivity.
Qed.

Lemma X14_lag_with_default :
  shift.shift_like "lag" demo.string_translator
    (shift.mkShiftBase demo.x None (Some (demo.int_literal 0)))
  = shift.shift_like "lag" demo.string_translator
      (shift.mkShiftBase demo.x (Some (demo.int_literal 1))
         (Some (demo.int_literal 0))).
Proof.
  refine (X14_shift_default_offset "lag" demo.string_translator demo.x
            (demo.int_literal 1) (demo.int_literal 0) _).
  reflexivity.
Defined.

(** X15.  The string rule for lag and lead returns a call exactly when the
    argument and the offset and default that are present all translate; the
    call then starts with the name and an opening parenthesis. *)
Theorem X15_shift_succeeds_iff
    (name : string) (t : window.translator) (op : shift.ShiftBase) :
  (is_Ok (shift.shift_like name t op) = true
   ↔ is_Ok (window.translate t (shift.arg op)) = true
     ∧ (∀ o, shift.offset op = Some o → is_Ok (window.translate t o) = true)
     ∧ (∀ d, shift.default op = Some d → is_Ok (window.translate t d) = true))
  ∧ (∀ s, shift.shift_like name t op = Ok s →
       ∃ rest, s = name +:+ "(" +:+ rest).
Proof.
  destruct op as [a o d]. unfold shift.shift_like. cbn. split.
  - split.
    + intros H.
      destruct (window.translate t a) as [sa|]; [|discriminate].
      split; [reflexivity|].
      destruct d as [d|], o as [o|]; cbn in H; split;
        intros x; intros [= <-] || discriminate;
        try (destruct (window.translate t o); [reflexivity|discriminate]);
        try (destruct (window.translate t d); [reflexivity|discriminate]).
      destruct (window.translate t o); [|discriminate]. cbn in H.
      destruct (window.translate t d); [reflexivity|discriminate].
    + intros (Ha & Ho & Hd).
      apply is_Ok_true in Ha as [sa ->]. cbn.
      destruct d as [d|], o as [o|]; cbn;
        try (destruct (is_Ok_true _ (Ho o eq_refl)) as [so ->]; cbn);
        try (destruct (is_Ok_true _ (Hd d eq_refl)) as [sd ->]; cbn);
        reflexivity.
  - intros s H.
    destruct (window.translate t a) as [sa|]; [|discriminate]. cbn in H.
    destruct d as [d|], o as [o|]; cbn in H;
      try (destruct (window.translate t o); [|discriminate]; cbn in H);
      try (destruct (window.translate t d); [|discriminate]; cbn in H);
      injection H as <-; unfold shift.call; eauto.
Qed.

(** X16.  The SQLAlchemy rules for lag and lead refuse a default, whatever
    the translator does; without a default, the call always has an offset,
    and a missing offset gives the call that the literal 1 gives. *)
Theorem X16_alchemy_shift
    (name : string) (t : alchemy.translator) (a one : node)
    (o : option node) :
  alchemy.translate t one = Ok (sa.literal (PyInt 1)) →
  (∀ d, shift._shift name t (shift.mkShiftBase a o (Some d))
        = Raise (com.NotImplementedError ""))
  ∧ shift._shift name t (shift.mkShiftBase a None None)
    = shift._shift name t (shift.mkShiftBase a (Some one) None)
  ∧ (∀ e, shift._shift name t (shift.mkShiftBase a o None) = Ok e →
       ∃ x y, e = sa.func name [x; y]).
Proof.
  intros H. split; [reflexivity|]. split.
  - unfold shift._shift. cbn. rewrite H. reflexivity.
  - intros e He. unfold shift._shift in He. cbn in He.
    apply bind_Ok_inv in He as (x & _ & He).
    apply bind_Ok_inv in He as (y & _ & He).
    injection He as <-. eauto.
Qed.

Lemma X16_lag_default_refused :
  shift._lag (demo.translator true false)
    (shift.mkShiftBase demo.x None (Some (demo.int_literal 0)))
  = Raise (com.NotImplementedError "").
Proof.
  refine (proj1 (X16_alchemy_shift "lag" (demo.translator true false) demo.x
                   (Literal (PyInt 1) dt.int8) None _) (demo.int_literal 0)).
  reflexivity.
Defined.

(** ** Variance, the variadic helper and casts *)

(** X17.  A variance reduction whose [how] is neither "sample" nor "pop"
    raises the key error on [how], whatever the translator does; for
    "sample" and "pop", what it returns is a call of the function named by
    the prefix and "_samp" or "_pop", on one argument. *)
Theorem X17_variance_how
    (func_name : string) (t : alchemy.translator) (op : variance.VarianceBase) :
  (variance.how op ≠ "sample" → variance.how op ≠ "pop" →
   variance.variance_reduction func_name t op
   = Raise (com.KeyError (variance.how op)))
  ∧ (∀ e, variance.variance_reduction func_name t op = Ok e →
       ∃ x, (variance.how op = "sample"
             ∧ e = sa.func (func_name +:+ "_samp") [x])
            ∨ (variance.how op = "pop"
               ∧ e = sa.func (func_name +:+ "_pop") [x])).
Proof.
  destruct op as [a how w]. unfold variance.variance_reduction, variance.suffix.
  cbn [variance.how variance.arg variance.where_ list_to_map foldr uncurry
       fst snd].
  split.
  - intros H1 H2. rewrite !lookup_insert_ne, lookup_empty by congruence.
    reflexivity.
  - intros e He.
    destruct (String.eqb_spec how "sample") as [->|H1].
    + rewrite lookup_insert_eq in He.
      apply bind_Ok_inv in He as (f & [= <-] & He).
      apply bind_Ok_inv in He as (x & _ & [= <-]). eauto.
    + rewrite lookup_insert_ne in He by congruence.
      destruct (String.eqb_spec how "pop") as [->|H2].
      * rewrite lookup_insert_eq in He.
        apply bind_Ok_inv in He as (f & [= <-] & He).
        apply bind_Ok_inv in He as (x & _ & [= <-]). eauto.
      * rewrite lookup_insert_ne, lookup_empty in He by congruence.
        discriminate.
Qed.

Lemma X17_variance_of_population :
  variance.variance_reduction "var" (demo.translator true false)
    (variance.mkVarianceBase demo.x "population" None)
  = Raise (com.KeyError "population").
Proof.
  refine (proj1 (X17_variance_how "var" (demo.translator true false)
                   (variance.mkVarianceBase demo.x "population" None)) _ _);
    discriminate.
Defined.

(** X18.  A filter on a variance reduction is a conditional on its
    argument: the reduction of [arg] filtered by [w] is the unfiltered
    reduction of [Where(w, arg, NULL)], where a boolean [arg] is first cast
    to int32; a boolean argument is never aggregated as it is. *)
Theorem X18_variance_filter
    (func_name : string) (t : alchemy.translator)
    (a w : node) (how : string) :
  let a' := if variance.is_boolean (output_dtype a)
            then Cast a dt.Int32 else a in
  variance.variance_reduction func_name t
    (variance.mkVarianceBase a how (Some w))
  = variance.variance_reduction func_name t
      (variance.mkVarianceBase (Where w a' (Literal PyNone dt.Null)) how None)
  ∧ variance.variance_reduction func_name t
      (variance.mkVarianceBase a how None)
    = variance.variance_reduction func_name t
        (variance.mkVarianceBase a' how None).
Proof.
  intros a'. subst a'. unfold variance.variance_reduction.
  cbn [variance.how variance.arg variance.where_ output_dtype].
  destruct (variance.is_boolean (output_dtype a)) eqn:Hb; cbn; rewrite ?Hb;
    split; reflexivity.
Qed.

(** X19.  The variadic rule on a tuple of arguments is the rule of the
    matching fixed arity on the node with these arguments; of any other
    arity, the fixed-arity rule raises where the variadic rule goes on. *)
Theorem X19_varargs_is_fixed_arity_unchecked
    (sa_func : list sa.expr → res sa.expr) (t : alchemy.translator)
    (name : string) (args : list node) (d : dt.t) (n : nat) :
  alchemy.fixed_arity sa_func (length args) t (Value name args d)
  = variadic.varargs sa_func t args
  ∧ (n ≠ length args →
     is_Ok (alchemy.fixed_arity sa_func n t (Value name args d)) = false).
Proof.
  unfold alchemy.fixed_arity, variadic.varargs. cbn [ops.args].
  rewrite length_fmap. split.
  - case_decide; [congruence|reflexivity].
  - intros Hn. case_decide; [reflexivity|]. lia.
Qed.

(** ** Tables and columns *)

Lemma walk_innermost (scope : gmap string sa.expr)
    (outward : list (gmap string sa.expr)) (table : string) :
  Exists (λ s, is_Some (s !! table)) (scope :: outward) →
  ∃ r pre s post,
    context.walk scope outward table = Some r
    ∧ scope :: outward = pre ++ s :: post
    ∧ Forall (λ m, m !! table = None) pre
    ∧ s !! table = Some r.
Proof.
  revert scope. induction outward as [|p ps IH]; intros scope H; cbn;
    unfold context.get_ref.
  - destruct (scope !! table) as [r|] eqn:Hs.
    + exists r, [], scope, []. auto.
    + apply Exists_cons in H as [[? H]|H]; [congruence|].
      apply Exists_nil in H as [].
  - destruct (scope !! table) as [r|] eqn:Hs.
    + exists r, [], scope, (p :: ps). auto.
    + apply Exists_cons in H as [[? H]|H]; [congruence|].
      destruct (IH p H) as (r & pre & s & post & Hw & Hc & Hpre & Hr).
      exists r, (scope :: pre), s, post. rewrite Hc. auto.
Qed.

Lemma has_ref_Exists (ctx : context.t) (table : string) :
  context.has_ref ctx table true = true
  ↔ Exists (λ s, is_Some (s !! table))
      (context.table_refs ctx :: context.parents ctx).
Proof.
  unfold context.has_ref, context.get_ref. rewrite Exists_cons.
  rewrite orb_true_iff, bool_decide_eq_true. cbn [andb].
  rewrite existsb_exists, Exists_exists.
  split; (intros [H|(s & Hin & Hs)]; [left; exact H|right; exists s]).
  - apply bool_decide_eq_true in Hs. split; [apply list_elem_of_In|]; auto.
  - split; [apply list_elem_of_In, Hin|]. apply bool_decide_eq_true, Hs.
Qed.

(** X21.  When the context or one of its parents binds the table, the
    table found is the binding of the innermost scope that has one, so a
    binding shadows the ones further out and the table's own SQLAlchemy
    table; when none binds it, an [AlchemyTable] gives its own table. *)
Theorem X21_innermost_binding (ctx : context.t) (tb : context.table) :
  let name := context.table_name tb in
  (context.has_ref ctx name true = true →
   ∃ r pre s post,
     context.get_sqla_table ctx tb = Ok (Some r)
     ∧ context.table_refs ctx :: context.parents ctx = pre ++ s :: post
     ∧ Forall (λ m, m !! name = None) pre
     ∧ s !! name = Some r)
  ∧ (context.has_ref ctx name true = false →
     ∀ n sqla_table, tb = context.AlchemyTable n sqla_table →
       context.get_sqla_table ctx tb = Ok (Some sqla_table)).
Proof.
  intros name. split.
  - intros H. unfold context.get_sqla_table. fold name. rewrite H.
    apply has_ref_Exists in H.
    destruct (walk_innermost _ _ _ H) as (r & pre & s & post & Hw & Hrest).
    exists r, pre, s, post. rewrite Hw. auto.
  - intros H n sqla_table ->. subst name. unfold context.get_sqla_table.
    cbn [context.table_name] in *. rewrite H. reflexivity.
Qed.

Lemma X21_shadowed_table :
  let ctx := context.mk ∅
               [{["t" := sa.column "t1"]}; {["t" := sa.column "t0"]}]
               (λ _, Raise (com.KeyError "")) in
  let tb := context.AlchemyTable "t" (sa.column "own") in
  ∃ r pre s post,
    context.get_sqla_table ctx tb = Ok (Some r)
    ∧ context.table_refs ctx :: context.parents ctx = pre ++ s :: post
    ∧ Forall (λ m, m !! "t" = None) pre
    ∧ s !! "t" = Some r.
Proof.
  intros ctx tb. apply (proj1 (X21_innermost_binding ctx tb)).
  vm_compute. reflexivity.
Defined.

Lemma find_key (cols : list (string * sa.expr)) (i : nat) (n : string)
    (c : sa.expr) :
  NoDup (cols.*1) → cols !! i = Some (n, c) →
  List.find (λ kc, String.eqb (fst kc) n) cols = Some (n, c).
Proof.
  revert i. induction cols as [|[k x] cols IH]; intros i Hnd Hi; [done|].
  cbn in Hnd. apply NoDup_cons in Hnd as [Hk Hnd]. cbn.
  destruct i as [|i]; cbn in Hi.
  - injection Hi as -> ->. rewrite String.eqb_refl. reflexivity.
  - destruct (String.eqb_spec k n) as [->|Hne]; [|eauto].
    exfalso. apply Hk. apply list_elem_of_fmap.
    exists (n, c). split; [reflexivity|]. eapply list_elem_of_lookup_2, Hi.
Qed.

Lemma find_no_key (cols : list (string * sa.expr)) (n : string) :
  n ∉ cols.*1 → List.find (λ kc, String.eqb (fst kc) n) cols = None.
Proof.
  induction cols as [|[k x] cols IH]; intros Hn; [done|]. cbn in *.
  apply not_elem_of_cons in Hn as [Hne Hn].
  destruct (String.eqb_spec k n); [congruence|]. auto.
Qed.

(** X22.  In a collection with distinct keys, the column kept under a key
    is found by that key, whatever the schema records.  A name that is no
    key is looked up in the schema: the column at its position is returned;
    a name the schema lacks is a key error, and a position beyond the
    collection an index error. *)
Theorem X22_get_col
    (cols : list (string * sa.expr)) (name_locs : gmap string nat)
    (colname : string) :
  (NoDup (cols.*1) → ∀ i c, cols !! i = Some (colname, c) →
     context.get_col cols name_locs colname = Ok c)
  ∧ (colname ∉ cols.*1 →
     (name_locs !! colname = None →
      context.get_col cols name_locs colname = Raise (com.KeyError colname))
     ∧ (∀ i, name_locs !! colname = Some i →
          (∀ k c, cols !! i = Some (k, c) →
             context.get_col cols name_locs colname = Ok c)
          ∧ ((length cols ≤ i)%nat →
             context.get_col cols name_locs colname
             = Raise (com.IndexError "index out of range")))).
Proof.
  unfold context.get_col, context.cols_get. split.
  - intros Hnd i c Hi. rewrite (find_key cols i colname c Hnd Hi). reflexivity.
  - intros Hn. rewrite (find_no_key cols colname Hn). cbn.
    split; [intros ->; reflexivity|].
    intros i ->. split.
    + intros k c ->. reflexivity.
    + intros Hlen. rewrite (lookup_ge_None_2 cols i Hlen). reflexivity.
Qed.

Lemma X22_joined_columns :
  context.get_col [("t0_a", sa.column "t0_a"); ("t1_b", sa.column "t1_b")]
    {["a" := 0%nat; "b" := 1%nat]} "b"
  = Ok (sa.column "t1_b").
Proof.
  refine (proj1 (proj2 (proj2 (X22_get_col
            [("t0_a", sa.column "t0_a"); ("t1_b", sa.column "t1_b")]
            {["a" := 0%nat; "b" := 1%nat]} "b") _) 1%nat _) "t1_b" _ _).
  - intros H. repeat (apply elem_of_cons in H as [H|H]; [discriminate|]).
    inversion H.
  - vm_compute. reflexivity.
  - reflexivity.
Defined.

(** ** The two tables of cumulative aggregates *)

(** X23.  The tables of the two files agree; distinct cumulative
    aggregates stand for distinct reductions; and none of these reductions
    is one that the string rule refuses inside a window. *)
Theorem X23_cumulative_tables (c c' : cumulative_cls) :
  window._cumulative_to_reduction c = alchemy._cumulative_to_reduction c
  ∧ (window._cumulative_to_reduction c = window._cumulative_to_reduction c' →
     c = c')
  ∧ window._unsupported_reductions
      (cReduction (window._cumulative_to_reduction c)) = false.
Proof.
  split; [destruct c; reflexivity|].
  split; [destruct c, c'; (reflexivity || discriminate)|].
  destruct c; reflexivity.
Qed.

(** ** The parts of an OVER clause *)

(** X24.  A formatted frame is "OVER (" and ")" around its parts, joined
    by spaces, in this order: "PARTITION BY" and the translated partition
    keys if there are any, "ORDER BY" and the translated order keys if
    there are any, and the frame clause, from the two formatted boundaries,
    if a boundary is present and the function takes a frame clause.  There
    is one part for each of the three that applies, and no other. *)
Theorem X24_over_clause_parts
    (t : window.translator) (func : node) (frame : WindowFrame) (s : string) :
  window.format_window_frame t func frame = Ok s →
  let framed :=
    (bool_decide (is_Some (start frame)) || bool_decide (is_Some (end_ frame)))
    && negb (window._forbids_frame_clause t (ops.type func)) in
  ∃ ps os clause,
    mapM (λ x : node, window.translate t x) (group_by frame) = Ok ps
    ∧ mapM (λ k, window.translate t (SortKey k)) (order_by frame) = Ok os
    ∧ (if framed then
         ∃ st en,
           match start frame with
           | None => Ok "UNBOUNDED PRECEDING"
           | Some b => window.format_window_boundary t b
           end = Ok st
           ∧ match end_ frame with
             | None => Ok "UNBOUNDED FOLLOWING"
             | Some b => window.format_window_boundary t b
             end = Ok en
           ∧ clause = [spec.between_text frame st en]
       else clause = [])
    ∧ s = "OVER ("
          +:+ String.concat " "
                ((if window.nonempty (group_by frame)
                  then ["PARTITION BY " +:+ String.concat ", " ps] else [])
                 ++ (if window.nonempty (order_by frame)
                     then ["ORDER BY " +:+ String.concat ", " os] else [])
                 ++ clause)
          +:+ ")"
    ∧ length clause = Nat.b2n framed.
Proof.
  intros H framed.
  assert (Hps : ∃ ps, mapM (λ x : node, window.translate t x) (group_by frame)
                      = Ok ps).
  { unfold window.format_window_frame in H. cbn zeta in H.
    destruct (group_by frame) as [|g gs]; [exists []; reflexivity|].
    cbn [window.nonempty] in H.
    apply bind_Ok_inv in H as (c1 & H1 & _).
    apply bind_Ok_inv in H1 as (ps & Hps & _). exists ps. exact Hps. }
  destruct Hps as [ps Hps].
  assert (Hos : ∃ os, mapM (λ k, window.translate t (SortKey k))
                        (order_by frame) = Ok os).
  { unfold window.format_window_frame in H. cbn zeta in H.
    apply bind_Ok_inv in H as (c1 & _ & H).
    destruct (order_by frame) as [|k ks]; [exists []; reflexivity|].
    cbn [window.nonempty] in H.
    apply bind_Ok_inv in H as (c2 & H2 & _).
    apply bind_Ok_inv in H2 as (os & Hos & _). exists os. exact Hos. }
  destruct Hos as [os Hos].
  rewrite (format_window_frame_keys t func frame ps os Hps Hos) in H.
  exists ps, os. subst framed.
  unfold spec.over_text, spec.keys_text in H.
  destruct (start frame) as [b1|], (end_ frame) as [b2|],
           (window._forbids_frame_clause t (ops.type func));
    cbn [bool_decide decide_rel andb orb negb] in *;
    try (exists []; rewrite bind_Ok in H; injection H as <-;
         rewrite app_nil_r;
         split; [exact Hps|]; split; [exact Hos|]; repeat split).
  - apply bind_Ok_inv in H as (c & Hc & H). injection H as <-.
    apply bind_Ok_inv in Hc as (st & Hst & Hc).
    apply bind_Ok_inv in Hc as (en & Hen & Hc). injection Hc as <-.
    exists [spec.between_text frame st en].
    split; [exact Hps|]. split; [exact Hos|].
    split; [exists st, en; auto|].
    rewrite <- app_assoc. split; reflexivity.
  - apply bind_Ok_inv in H as (c & Hc & H). injection H as <-.
    apply bind_Ok_inv in Hc as (st & Hst & Hc).
    rewrite bind_Ok in Hc. injection Hc as <-.
    exists [spec.between_text frame st "UNBOUNDED FOLLOWING"].
    split; [exact Hps|]. split; [exact Hos|].
    split; [exists st, "UNBOUNDED FOLLOWING"; auto|].
    rewrite <- app_assoc. split; reflexivity.
  - apply bind_Ok_inv in H as (c & Hc & H). injection H as <-.
    rewrite bind_Ok in Hc.
    apply bind_Ok_inv in Hc as (en & Hen & Hc). injection Hc as <-.
    exists [spec.between_text frame "UNBOUNDED PRECEDING" en].
    split; [exact Hps|]. split; [exact Hos|].
    split; [exists "UNBOUNDED PRECEDING", en; auto|].
    rewrite <- app_assoc. split; reflexivity.
Qed.

Lemma X24_three_parts :
  let t := demo.string_translator in
  let frame := demo.rows [demo.x] [demo.asc demo.ts]
                 (Some (demo.preceding (demo.int_literal 5)))
                 (Some (demo.following (demo.int_literal 0))) in
  ∃ ps os clause,
    mapM (λ x : node, window.translate t x) (group_by frame) = Ok ps
    ∧ mapM (λ k, window.translate t (SortKey k)) (order_by frame) = Ok os
    ∧ (∃ st en,
         window.format_window_boundary t
           (demo.preceding (demo.int_literal 5)) = Ok st
         ∧ window.format_window_boundary t
             (demo.following (demo.int_literal 0)) = Ok en
         ∧ clause = [spec.between_text frame st en])
    ∧ "OVER (PARTITION BY `x` ORDER BY `ts` ROWS BETWEEN 5 PRECEDING AND CURRENT ROW)"
      = "OVER ("
        +:+ String.concat " "
              (["PARTITION BY " +:+ String.concat ", " ps]
               ++ ["ORDER BY " +:+ String.concat ", " os] ++ clause)
        +:+ ")"
    ∧ length clause = 1%nat.
Proof.
  intros t frame.
  refine (X24_over_clause_parts t (Reduction Sum demo.x None dt.Int64) frame
            _ _).
  reflexivity.
Defined.

(** X25.  In the SQLAlchemy rule, a function that requires an ORDER BY,
    over a frame without order keys, is ordered by its translated argument
    alone; in every other case the order is the list of the translated
    order keys of the frame. *)
Theorem X25_alchemy_order_by
    (windowize_function : node → WindowFrame → res node)
    (class_repr : ops.cls → string) (get_name : node → string)
    (ta : alchemy.translator)
    (func : node) (frame : WindowFrame) (e : sa.expr) :
  ops.is_CumulativeOp func = false →
  alchemy._window_function windowize_function get_name class_repr ta
    (WindowFunction func frame) = Ok e →
  ∃ call partition_by order_by frame_clause,
    (e = sa.over call partition_by order_by frame_clause
     ∨ e = sa.sub (sa.over call partition_by order_by frame_clause) 1)
    ∧ if alchemy._require_order_by ta (ops.type func)
         && negb (window.nonempty (ops.order_by frame))
      then ∃ a r, window.arg_of func = Ok a
                  ∧ alchemy.translate ta a = Ok r ∧ order_by = inl r
      else ∃ os, mapM (λ k, alchemy.translate ta (SortKey k))
                   (ops.order_by frame) = Ok os
                 ∧ order_by = inr os.
Proof.
  intros Hc. unfold alchemy._window_function. rewrite Hc. intros H.
  apply bind_Ok_inv in H as (call & _ & H).
  apply bind_Ok_inv in H as (o & Ho & H).
  apply bind_Ok_inv in H as (p & _ & H).
  apply bind_Ok_inv in H as (how & _ & H).
  apply bind_Ok_inv in H as (f & _ & H).
  exists call, p, o, f. split.
  - destruct (alchemy.is_zero_based_rank (ops.type func));
      injection H as <-; auto.
  - destruct (alchemy._require_order_by ta (ops.type func)
              && negb (window.nonempty (ops.order_by frame))).
    + apply bind_Ok_inv in Ho as (a & Ha & Ho).
      apply bind_Ok_inv in Ho as (r & Hr & [= <-]). eauto.
    + apply bind_Ok_inv in Ho as (os & Hos & [= <-]). eauto.
Qed.

Lemma X25_rank_ordered_by_argument :
  ∃ call partition_by order_by frame_clause,
    (sa.sub (sa.over (sa.func "rank" []) [] (inl (sa.column "x")) None) 1
     = sa.over call partition_by order_by frame_clause
     ∨ sa.sub (sa.over (sa.func "rank" []) [] (inl (sa.column "x")) None) 1
       = sa.sub (sa.over call partition_by order_by frame_clause) 1)
    ∧ ∃ a r, window.arg_of (Analytic MinRank [demo.x] dt.Int64) = Ok a
             ∧ alchemy.translate (demo.translator true false) a = Ok r
             ∧ order_by = inl r.
Proof.
  refine (X25_alchemy_order_by demo.windowize_function demo.class_repr
            demo.get_name (demo.translator true false)
            (Analytic MinRank [demo.x] dt.Int64)
            (demo.rows [] [] None None) _ _ _); reflexivity.
Defined.
